(** * Dukaan-Dost: the order lifecycle, notification sweep and command router

    A shallow embedding of [app.py].  The process state (the three stores on
    disk and the three process-wide maps) is an explicit record that every
    handler takes and returns; every call of [send_whatsapp_message] is
    recorded, in order, in an outbox.

    Conventions of the embedding.
    - Text is a Rocq [string]; the Python string methods used by the program
      ([strip], [lower], [split], [isdigit], [startswith], [replace], [int])
      are written out for ASCII text: a character above 127 is neither
      white space, nor a digit, nor a capital letter.
    - Python integers are unbounded, so they are [Z].
    - A frame read by [load_orders] has text cells ([dtype=str]); a cell that
      is missing after the defaults are filled in is the text [nan], which is
      what every reader of the cell ([str], an f-string, [astype(int)])
      makes of it.
    - A store that does not exist yet reads as its seed: [default_products]
      for the catalog and the empty frame for the ledger.
    - Reply texts are constructors of [message] that carry the values the
      program formats into them; a chart sent as an image is one such
      message.
    - [for admin_num in admin_numbers] visits the set in the order of
      [elements]; Python leaves the order open. *)

From Stdlib Require Import ZArith Ascii String List Bool Lia Sorted.
From Stdlib Require Import DecimalString DecimalZ DecimalPos.
From stdpp Require Import base option list strings gmap.

Local Open Scope Z_scope.

(** ** Python text operations *)

Module Text.

Definition ord (c : ascii) : Z := Z.of_N (N_of_ascii c).

(** [str.isspace] on one ASCII character: TAB..CR, FS..US and the blank. *)
Definition isspace (c : ascii) : bool :=
  ((9 <=? ord c) && (ord c <=? 13)) || ((28 <=? ord c) && (ord c <=? 32)).

Fixpoint lstrip (s : string) : string :=
  match s with
  | EmptyString => EmptyString
  | String c s' => if isspace c then lstrip s' else s
  end.

Fixpoint rstrip (s : string) : string :=
  match s with
  | EmptyString => EmptyString
  | String c s' =>
      match rstrip s' with
      | EmptyString => if isspace c then EmptyString else String c EmptyString
      | r => String c r
      end
  end.

(** [s.strip()] *)
Definition strip (s : string) : string := rstrip (lstrip s).

Definition lower_char (c : ascii) : ascii :=
  if (65 <=? ord c) && (ord c <=? 90)
  then ascii_of_N (N_of_ascii c + 32)
  else c.

(** [s.lower()] *)
Fixpoint lower (s : string) : string :=
  match s with
  | EmptyString => EmptyString
  | String c s' => String (lower_char c) (lower s')
  end.

(** [s.startswith(p)] *)
Definition startswith (s p : string) : bool := String.prefix p s.

(** [s[n:]] *)
Fixpoint drop (n : nat) (s : string) : string :=
  match n, s with
  | O, _ => s
  | S n', String _ s' => drop n' s'
  | S _, EmptyString => EmptyString
  end.

(** [s.replace(p, "", 1)] for a non-empty [p]: the first occurrence of [p]
    is cut out. *)
Fixpoint remove_first (p s : string) : string :=
  if String.prefix p s then drop (String.length p) s
  else match s with
       | EmptyString => EmptyString
       | String c s' => String c (remove_first p s')
       end.

(** [c in s] for a one-character [c] *)
Fixpoint has_char (c : ascii) (s : string) : bool :=
  match s with
  | EmptyString => false
  | String a s' => if Ascii.eqb a c then true else has_char c s'
  end.

(** [s.split(c, 1)]: one or two pieces. *)
Fixpoint split1 (c : ascii) (s : string) : list string :=
  match s with
  | EmptyString => [EmptyString]
  | String a s' =>
      if Ascii.eqb a c then [EmptyString; s']
      else match split1 c s' with
           | h :: t => String a h :: t
           | [] => [String a EmptyString]
           end
  end.

(** [s.split()]: the maximal runs of non-space characters. *)
Fixpoint split_ws (cur s : string) : list string :=
  match s with
  | EmptyString => match cur with EmptyString => [] | _ => [cur] end
  | String c s' =>
      if isspace c
      then match cur with
           | EmptyString => split_ws EmptyString s'
           | _ => cur :: split_ws EmptyString s'
           end
      else split_ws (cur +:+ String c EmptyString) s'
  end.

Definition split (s : string) : list string := split_ws EmptyString s.

Definition digit_of (c : ascii) : option Z :=
  if (48 <=? ord c) && (ord c <=? 57) then Some (ord c - 48) else None.

Definition is_digit (c : ascii) : bool :=
  match digit_of c with Some _ => true | None => false end.

Fixpoint all_digits (s : string) : bool :=
  match s with
  | EmptyString => true
  | String c s' => is_digit c && all_digits s'
  end.

(** [s.isdigit()] *)
Definition isdigit (s : string) : bool :=
  match s with
  | EmptyString => false
  | _ => all_digits s
  end.

(** The digits of an integer literal after its first digit: a digit, or
    one underscore followed by a digit. *)
Fixpoint int_digits (acc : Z) (s : string) : option Z :=
  match s with
  | EmptyString => Some acc
  | String c s' =>
      match digit_of c with
      | Some d => int_digits (10 * acc + d) s'
      | None =>
          if Ascii.eqb c "_"
          then match s' with
               | String c2 s'' =>
                   match digit_of c2 with
                   | Some d => int_digits (10 * acc + d) s''
                   | None => None
                   end
               | EmptyString => None
               end
          else None
      end
  end.

Definition int_unsigned (s : string) : option Z :=
  match s with
  | String c s' =>
      match digit_of c with
      | Some d => int_digits d s'
      | None => None
      end
  | EmptyString => None
  end.

(** [int(s)] for a text [s], base ten: surrounding white space, an optional
    sign, digits with single underscores between them.  [None] is the
    [ValueError]. *)
Definition int_of_str (s : string) : option Z :=
  match strip s with
  | String "-" s' => Z.opp <$> int_unsigned s'
  | String "+" s' => int_unsigned s'
  | s' => int_unsigned s'
  end.

(** [str(z)] for an integer [z] *)
Definition str_of_int (z : Z) : string := NilZero.string_of_int (Z.to_int z).

End Text.

(** ** The stores and the process state *)

(** A row of [products.csv]. *)
Record product_row := ProductRow {
  name : string;
  price : Z;
  stock : Z
}.

(** A row of [orders.csv]; every cell is text. *)
Record order_row := OrderRow {
  order_id : string;
  product : string;
  quantity : string;
  status : string;
  eta : string;
  payment : string;
  customer : string;
  date : string
}.

(** The two values [user_sessions] ever holds for a sender. *)
Inductive session := awaiting_order_id | awaiting_new_order.

(** The texts handed to [send_whatsapp_message]. *)
Inductive message :=
| MsgLowStock (product : string) (new_stock : Z)
| MsgOrderUpdate (row : order_row)
| MsgRestockWrongFormat
| MsgQuantityMustBeInteger
| MsgRestocked (item : string) (qty : Z) (new_stock : option Z)
| MsgProductNotFound (item : string)
| MsgAddOfferUsage
| MsgOfferAdded (offer : string)
| MsgRemoveOfferUsage
| MsgNoOffersFile
| MsgOfferRemoved (offer : string)
| MsgOfferNotFound (offer : string)
| MsgOffers (offers : list string)
| MsgAdminActivated
| MsgWrongAdminPin
| MsgExitedAdmin
| MsgAdminProducts (df : list product_row)
| MsgNoOrdersYet
| MsgAdminOrders (df : list order_row)
| MsgSalesInsightsChart
| MsgNoSalesData
| MsgPnlSummary
| MsgStockLevels (df : list product_row)
| MsgDemandInsights
| MsgDemandChart
| MsgInvalidAdminOption
| MsgOrderIdDigitsOnly
| MsgOrderStatus (row : order_row)
| MsgOrderNotFound
| MsgCouldNotPlaceOrder
| MsgOrderPlaced (qty product new_id : string)
| MsgThankYou
| MsgCouldNotSaveOrder
| MsgWrongOrderFormat
| MsgCustomerMenu
| MsgProducts (df : list product_row)
| MsgEnterOrderId
| MsgTypeOrder
| MsgSupport
| MsgInvalidOption
| MsgInvalidChoice.

(** One call [send_whatsapp_message(to, message)]. *)
Definition outgoing : Type := string * message.

Record state := State {
  products_csv : list product_row;
  orders_csv : list order_row;
  offers_file : option string;
  user_sessions : gmap string session;
  admin_numbers : gset string;
  last_order_status : gmap string string;
  today : string
}.

Definition ADMIN_PIN : string := "1234".
Definition LOW_STOCK_THRESHOLD : Z := 10.

Definition default_products : list product_row :=
  [ProductRow "sugar" 40 10; ProductRow "rice" 55 10; ProductRow "oil" 120 10].

Definition save_products (st : state) (df : list product_row) : state :=
  State df (orders_csv st) (offers_file st) (user_sessions st)
        (admin_numbers st) (last_order_status st) (today st).

Definition save_orders (st : state) (df : list order_row) : state :=
  State (products_csv st) df (offers_file st) (user_sessions st)
        (admin_numbers st) (last_order_status st) (today st).

Definition write_offers (st : state) (content : string) : state :=
  State (products_csv st) (orders_csv st) (Some content) (user_sessions st)
        (admin_numbers st) (last_order_status st) (today st).

Definition set_sessions (st : state) (m : gmap string session) : state :=
  State (products_csv st) (orders_csv st) (offers_file st) m
        (admin_numbers st) (last_order_status st) (today st).

Definition set_admins (st : state) (a : gset string) : state :=
  State (products_csv st) (orders_csv st) (offers_file st) (user_sessions st)
        a (last_order_status st) (today st).

Definition set_last_status (st : state) (m : gmap string string) : state :=
  State (products_csv st) (orders_csv st) (offers_file st) (user_sessions st)
        (admin_numbers st) m (today st).

(** ** Catalog frame operations *)

(** [item in df["name"].values] *)
Fixpoint name_in (item : string) (df : list product_row) : bool :=
  match df with
  | [] => false
  | r :: df' => if String.eqb (name r) item then true else name_in item df'
  end.

(** [df.loc[df["name"] == item, "stock"].values[0]]; [None] when no row has
    the name. *)
Fixpoint first_stock (item : string) (df : list product_row) : option Z :=
  match df with
  | [] => None
  | r :: df' =>
      if String.eqb (name r) item then Some (stock r) else first_stock item df'
  end.

(** [df.loc[df["name"] == item, "stock"] = v]: every row of that name. *)
Definition assign_stock (item : string) (v : Z) (df : list product_row)
  : list product_row :=
  (fun r => if String.eqb (name r) item then ProductRow (name r) (price r) v else r)
    <$> df.

(** [df.loc[m, "stock"] = df.loc[m, "stock"].astype(int) + qty] with
    [m = (df["name"] == item)]. *)
Definition add_stock (item : string) (qty : Z) (df : list product_row)
  : list product_row :=
  (fun r => if String.eqb (name r) item
            then ProductRow (name r) (price r) (stock r + qty) else r)
    <$> df.


(** ** Order ids *)

(** The element range of the integer column [astype(int)] builds. *)
Definition in_int64 (z : Z) : bool := (- 2 ^ 63 <=? z) && (z <? 2 ^ 63).

Definition cell_to_int (s : string) : option Z :=
  match Text.int_of_str s with
  | Some z => if in_int64 z then Some z else None
  | None => None
  end.

(** [col.astype(int)]: every cell converts, or the call raises. *)
Fixpoint astype_int (col : list string) : option (list Z) :=
  match col with
  | [] => Some []
  | s :: col' =>
      match cell_to_int s, astype_int col' with
      | Some z, Some zs => Some (z :: zs)
      | _, _ => None
      end
  end.

(** [.max()] of a column. *)
Definition column_max (zs : list Z) : Z :=
  match zs with
  | [] => 0
  | z :: zs' => fold_left Z.max zs' z
  end.

(** The id [add_order] gives to the next row of the ledger [df]. *)
Definition next_order_id (df : list order_row) : Z :=
  match df with
  | [] => 10001
  | _ :: _ =>
      match astype_int (order_id <$> df) with
      | Some ids => column_max ids + 1
      | None => Z.of_nat (length df) + 10001
      end
  end.

(** ** add_order *)

(** The dynamically typed [qty] argument. *)
Inductive pyvalue := PyInt (z : Z) | PyStr (s : string) | PyNone.

(** [int(qty)]; [None] when it raises. *)
Definition py_int (v : pyvalue) : option Z :=
  match v with
  | PyInt z => Some z
  | PyStr s => Text.int_of_str s
  | PyNone => None
  end.

Definition low_stock_alerts (st : state) (item : string) (new_stock : Z)
  : list outgoing :=
  if new_stock <? LOW_STOCK_THRESHOLD
  then (fun admin_num => (admin_num, MsgLowStock item new_stock))
         <$> elements (admin_numbers st)
  else [].

(** [add_order(product, qty, customer)]: the returned id ([None] as in the
    source), the state afterwards and the messages sent. *)
Definition add_order (st : state) (item : string) (qty : pyvalue)
    (cust : string) : option string * state * list outgoing :=
  let products_df := products_csv st in
  if negb (name_in item products_df) then (None, st, [])
  else
    match py_int qty with
    | None => (None, st, [])                     (* int(qty) raised *)
    | Some qty_int =>
        match first_stock item products_df with
        | None => (None, st, [])     (* not reached: a row has the name *)
        | Some current_stock =>
            if current_stock <? qty_int then (None, st, [])
            else
              let st1 :=
                save_products st
                  (assign_stock item (current_stock - qty_int) products_df) in
              let new_stock := current_stock - qty_int in
              let alerts := low_stock_alerts st1 item new_stock in
              let df := orders_csv st1 in
              let new_id := next_order_id df in
              let new_row :=
                OrderRow (Text.str_of_int new_id) item (Text.str_of_int qty_int)
                         "Processing" "2 days" "Cash/UPI on Delivery" cust
                         (today st1) in
              (Some (Text.str_of_int new_id),
               save_orders st1 (df ++ [new_row]), alerts)
        end
    end.

(** ** check_order_updates *)

Definition nonempty (s : string) : bool :=
  match s with EmptyString => false | _ => true end.

(** The body of the loop over [df.iterrows()], on the cache and the outbox. *)
Definition observe_row (acc : gmap string string * list outgoing)
    (row : order_row) : gmap string string * list outgoing :=
  let oid := order_id row in
  let current_status := Text.strip (status row) in
  match acc.1 !! oid with
  | None => (<[oid := current_status]> acc.1, acc.2)
  | Some last =>
      if String.eqb last current_status then acc
      else
        let cust := Text.strip (customer row) in
        (<[oid := current_status]> acc.1,
         if nonempty cust then acc.2 ++ [(cust, MsgOrderUpdate row)] else acc.2)
  end.

Definition sweep_rows (cache : gmap string string) (df : list order_row)
  : gmap string string * list outgoing :=
  fold_left observe_row df (cache, []).

(** One run of [check_order_updates]. *)
Definition check_order_updates (st : state) : state * list outgoing :=
  let r := sweep_rows (last_order_status st) (orders_csv st) in
  (set_last_status st r.1, r.2).

(** ** simulate_order_flow *)

Definition ship (row : order_row) : order_row :=
  OrderRow (order_id row) (product row) (quantity row) "Shipped" "Tomorrow"
           (payment row) (customer row) (date row).

Definition deliver (row : order_row) : order_row :=
  OrderRow (order_id row) (product row) (quantity row) "Delivered"
           "Delivered Today" (payment row) (customer row) (date row).

Definition status_is (row : order_row) (what : string) : bool :=
  String.eqb (Text.lower (Text.strip (status row))) what.

(** The loop over the rows: the frame after the first row that is
    processing or shipped has been moved on, [None] when the loop ends with
    [updated = False]. *)
Fixpoint advance_first (df : list order_row) : option (list order_row) :=
  match df with
  | [] => None
  | row :: rest =>
      if status_is row "processing" then Some (ship row :: rest)
      else if status_is row "shipped" then Some (deliver row :: rest)
      else cons row <$> advance_first rest
  end.

(** One run of [simulate_order_flow]. *)
Definition simulate_order_flow (st : state) : state :=
  match advance_first (orders_csv st) with
  | Some df => save_orders st df
  | None => st
  end.

(** What the docstring of [simulate_order_flow] describes: the first
    Processing row is shipped; else the first Shipped row is delivered. *)
Fixpoint ship_first_processing (df : list order_row) : option (list order_row) :=
  match df with
  | [] => None
  | row :: rest =>
      if status_is row "processing" then Some (ship row :: rest)
      else cons row <$> ship_first_processing rest
  end.

Fixpoint deliver_first_shipped (df : list order_row) : option (list order_row) :=
  match df with
  | [] => None
  | row :: rest =>
      if status_is row "shipped" then Some (deliver row :: rest)
      else cons row <$> deliver_first_shipped rest
  end.

Definition advance_documented (df : list order_row) : option (list order_row) :=
  match ship_first_processing df with
  | Some df' => Some df'
  | None => deliver_first_shipped df
  end.

(** ** Offers file *)

Definition is_cr (c : ascii) : bool := Ascii.eqb c "013".
Definition is_lf (c : ascii) : bool := Ascii.eqb c "010".

(** [f.readlines()] of a file opened for reading as text: a line ends at a
    line feed, a carriage return or the pair of them. *)
Fixpoint readlines_from (cur s : string) : list string :=
  match s with
  | EmptyString => match cur with EmptyString => [] | _ => [cur] end
  | String c s' =>
      if is_lf c then (cur +:+ String c EmptyString) :: readlines_from EmptyString s'
      else if is_cr c then
        match s' with
        | String c2 s'' =>
            if is_lf c2
            then (cur +:+ String c2 EmptyString) :: readlines_from EmptyString s''
            else (cur +:+ String "010" EmptyString) :: readlines_from EmptyString s'
        | EmptyString => [cur +:+ String "010" EmptyString]
        end
      else readlines_from (cur +:+ String c EmptyString) s'
  end.

Definition readlines (content : string) : list string :=
  readlines_from EmptyString content.

(** [[line.strip() for line in f.readlines() if line.strip()]] *)
Definition read_offers (content : string) : list string :=
  filter (fun o => nonempty o = true) (Text.strip <$> readlines content).

(** The text written by [for o in offers: f.write(o + "\n")]. *)
Fixpoint offers_text (offers : list string) : string :=
  match offers with
  | [] => EmptyString
  | o :: offers' => o +:+ String "010" EmptyString +:+ offers_text offers'
  end.

Definition default_offers : list string :=
  ["10% off on Rice"; "Buy 1 Get 1 Free on Sugar"; "Flat ₹20 off on Oil"].

(** The offers [get_offers_text] lists. *)
Definition get_offers_text (st : state) : list string :=
  match offers_file st with
  | Some content =>
      match read_offers content with
      | [] => default_offers
      | offers => offers
      end
  | None => default_offers
  end.

(** [offer in offers] *)
Fixpoint offer_in (offer : string) (offers : list string) : bool :=
  match offers with
  | [] => false
  | o :: offers' => if String.eqb o offer then true else offer_in offer offers'
  end.

(** [offers.remove(offer)]: the first equal entry goes. *)
Fixpoint list_remove (offer : string) (offers : list string) : list string :=
  match offers with
  | [] => []
  | o :: offers' =>
      if String.eqb o offer then offers' else o :: list_remove offer offers'
  end.

(** ** handle_admin_command_text *)

(** The handler's result: whether the text was an admin command, the state
    afterwards and the messages sent. *)
Definition handle_admin_command_text (st : state) (from_number text : string)
  : bool * state * list outgoing :=
  if Text.startswith text "restock " then
    let args := Text.strip (Text.drop 8 text) in
    if negb (Text.has_char "," args)
    then (true, st, [(from_number, MsgRestockWrongFormat)])
    else
      match Text.strip <$> Text.split1 "," args with
      | [item; qty_str] =>
          match Text.int_of_str qty_str with
          | None => (true, st, [(from_number, MsgQuantityMustBeInteger)])
          | Some qty =>
              let products := products_csv st in
              if name_in item products then
                let products' := add_stock item qty products in
                (true, save_products st products',
                 [(from_number,
                   MsgRestocked item qty (first_stock item products'))])
              else (true, st, [(from_number, MsgProductNotFound item)])
          end
      | _ => (true, st, [])        (* not reached: the comma gives two pieces *)
      end
  else if Text.startswith text "add offer" then
    let offer := Text.strip (Text.remove_first "add offer" text) in
    if negb (nonempty offer)
    then (true, st, [(from_number, MsgAddOfferUsage)])
    else
      let old := match offers_file st with Some c => c | None => EmptyString end in
      (true, write_offers st (old +:+ offer +:+ String "010" EmptyString),
       [(from_number, MsgOfferAdded offer)])
  else if Text.startswith text "remove offer" then
    let offer := Text.strip (Text.remove_first "remove offer" text) in
    if negb (nonempty offer)
    then (true, st, [(from_number, MsgRemoveOfferUsage)])
    else
      match offers_file st with
      | None => (true, st, [(from_number, MsgNoOffersFile)])
      | Some content =>
          let offers := read_offers content in
          if offer_in offer offers then
            (true, write_offers st (offers_text (list_remove offer offers)),
             [(from_number, MsgOfferRemoved offer)])
          else (true, st, [(from_number, MsgOfferNotFound offer)])
      end
  else if String.eqb text "offers" then
    (true, st, [(from_number, MsgOffers (get_offers_text st))])
  else (false, st, []).

(** ** The webhook, one message at a time *)

(** [generate_sales_chart()] has a chart exactly when the ledger has rows. *)
Definition has_sales_chart (st : state) : bool :=
  match orders_csv st with [] => false | _ => true end.

(** The numeric options of the owner menu. *)
Definition admin_menu (st : state) (from_number text : string)
  : state * list outgoing :=
  if String.eqb text "1" then
    (st, [(from_number, MsgAdminProducts (products_csv st))])
  else if String.eqb text "2" then
    match orders_csv st with
    | [] => (st, [(from_number, MsgNoOrdersYet)])
    | df => (st, [(from_number, MsgAdminOrders df)])
    end
  else if String.eqb text "3" then
    if has_sales_chart st then (st, [(from_number, MsgSalesInsightsChart)])
    else (st, [(from_number, MsgNoSalesData)])
  else if String.eqb text "4" then (st, [(from_number, MsgPnlSummary)])
  else if String.eqb text "5" then
    (st, [(from_number, MsgStockLevels (products_csv st))])
  else if String.eqb text "6" then
    (st, (from_number, MsgDemandInsights)
           :: if has_sales_chart st then [(from_number, MsgDemandChart)] else [])
  else (st, [(from_number, MsgInvalidAdminOption)]).

(** [df[df["order_id"].astype(str) == order_id].iloc[0]] *)
Fixpoint find_order (oid : string) (df : list order_row) : option order_row :=
  match df with
  | [] => None
  | row :: df' =>
      if String.eqb (order_id row) oid then Some row else find_order oid df'
  end.

(** [user_sessions.pop(session_key, None)] *)
Definition pop_session (st : state) (session_key : string) : state :=
  set_sessions st (delete session_key (user_sessions st)).

(** The branch taken when the sender's session is [awaiting_order_id]. *)
Definition order_status_reply (st : state) (from_number text : string)
  : state * list outgoing :=
  let st := pop_session st from_number in
  if negb (Text.isdigit text) then (st, [(from_number, MsgOrderIdDigitsOnly)])
  else
    match find_order text (orders_csv st) with
    | Some row => (st, [(from_number, MsgOrderStatus row)])
    | None => (st, [(from_number, MsgOrderNotFound)])
    end.

(** [not new_id] on the value [add_order] returned. *)
Definition falsy (new_id : option string) : bool :=
  match new_id with
  | None => true
  | Some s => negb (nonempty s)
  end.

(** The branch taken when the sender's session is [awaiting_new_order]. *)
Definition new_order_reply (st : state) (from_number text : string)
  : state * list outgoing :=
  let st := pop_session st from_number in
  if Text.has_char "," text then
    match Text.strip <$> Text.split1 "," text with
    | [item; qty] =>
        match Text.int_of_str qty with
        | None => (st, [(from_number, MsgCouldNotSaveOrder)])   (* except *)
        | Some q =>
            let '(new_id, st', alerts) := add_order st item (PyInt q) from_number in
            if falsy new_id
            then (st', alerts ++ [(from_number, MsgCouldNotPlaceOrder)])
            else (st', alerts ++
                       [(from_number,
                         MsgOrderPlaced qty item (default EmptyString new_id));
                        (from_number, MsgThankYou)])
        end
    | _ => (st, [(from_number, MsgCouldNotSaveOrder)])          (* except *)
    end
  else (st, [(from_number, MsgWrongOrderFormat)]).

(** The menu and its commands, reached with no pending prompt. *)
Definition customer_menu (st : state) (from_number text : string)
  : state * list outgoing :=
  if String.eqb text "hi" || String.eqb text "hello" || String.eqb text "hey"
  then (pop_session st from_number, [(from_number, MsgCustomerMenu)])
  else if String.eqb text "1" then
    (st, [(from_number, MsgProducts (products_csv st))])
  else if String.eqb text "2" then
    (set_sessions st (<[from_number := awaiting_order_id]> (user_sessions st)),
     [(from_number, MsgEnterOrderId)])
  else if String.eqb text "3" then
    (set_sessions st (<[from_number := awaiting_new_order]> (user_sessions st)),
     [(from_number, MsgTypeOrder)])
  else if String.eqb text "4" then
    (st, [(from_number, MsgOffers (get_offers_text st))])
  else if String.eqb text "5" then (st, [(from_number, MsgSupport)])
  else if Text.isdigit text then (st, [(from_number, MsgInvalidOption)])
  else (st, [(from_number, MsgInvalidChoice)]).

(** The customer flow: the pending prompt, if any, takes the message. *)
Definition customer_flow (st : state) (from_number text : string)
  : state * list outgoing :=
  match user_sessions st !! from_number with
  | Some awaiting_order_id => order_status_reply st from_number text
  | Some awaiting_new_order => new_order_reply st from_number text
  | None => customer_menu st from_number text
  end.

(** The admin login: [parts = text.split()], [parts[1] == ADMIN_PIN]. *)
Definition admin_login (st : state) (from_number text : string)
  : state * list outgoing :=
  match Text.split text with
  | _ :: pin :: _ =>
      if String.eqb pin ADMIN_PIN
      then (set_admins st ({[from_number]} ∪ admin_numbers st),
            [(from_number, MsgAdminActivated)])
      else (st, [(from_number, MsgWrongAdminPin)])
  | _ => (st, [(from_number, MsgWrongAdminPin)])
  end.

(** The body of the loop over the messages of a webhook call, for the
    message [body] sent by [from_number]. *)
Definition incoming (st : state) (from_number body : string)
  : state * list outgoing :=
  let text := Text.lower (Text.strip body) in
  if Text.startswith text "admin" then admin_login st from_number text
  else if String.eqb text "exit" && bool_decide (from_number ∈ admin_numbers st)
  then (set_admins st (admin_numbers st ∖ {[from_number]}),
        [(from_number, MsgExitedAdmin)])
  else if bool_decide (from_number ∈ admin_numbers st) then
    let '(handled, st', out) := handle_admin_command_text st from_number text in
    if handled then (st', out) else admin_menu st from_number text
  else customer_flow st from_number text.


Definition initial_state (day : string) : state :=
  State default_products [] None ∅ ∅ ∅ day.

(** ** Predicates and measures used by the statements *)





(** A row the simulator passes over. *)
Definition settled (row : order_row) : Prop :=
  status_is row "processing" = false /\ status_is row "shipped" = false.

(** The status updates of an outbox that are about the order [oid]. *)
Definition updates_for (oid : string) (out : list outgoing) : list outgoing :=
  List.filter (fun m => match m.2 with
                        | MsgOrderUpdate row => String.eqb (order_id row) oid
                        | _ => false
                        end) out.

(** The cache holds, for every row of the ledger, the status a sweep would
    read from it. *)
Definition synced (cache : gmap string string) (df : list order_row) : Prop :=
  Forall (fun row => cache !! order_id row = Some (Text.strip (status row))) df.

(** A text without a line feed or a carriage return. *)
Fixpoint no_breaks (s : string) : bool :=
  match s with
  | EmptyString => true
  | String c s' => negb (is_lf c) && negb (is_cr c) && no_breaks s'
  end.

(** An entry that reads back from the offers file as it is: one line, with
    no white space around it, not empty. *)
Definition offer_line (o : string) : Prop :=
  no_breaks o = true /\ Text.strip o = o /\ nonempty o = true.

(** The ledger [add_order] builds from nothing: the row at position [i]
    has the id [10001 + i]. *)
Definition numbered (df : list order_row) : Prop :=
  order_id <$> df
  = (fun i => Text.str_of_int (10001 + Z.of_nat i)) <$> seq 0 (length df).


(** * Facts about the text operations *)

Module TextFacts.
Import Text.

Lemma rstrip_uint d :
  rstrip (NilEmpty.string_of_uint d) = NilEmpty.string_of_uint d.
Proof.
  induction d as [|d IH|d IH|d IH|d IH|d IH|d IH|d IH|d IH|d IH|d IH];
    cbn [NilEmpty.string_of_uint rstrip]; [reflexivity|..];
    rewrite IH; destruct (NilEmpty.string_of_uint d); reflexivity.
Qed.

Lemma lstrip_uint d :
  lstrip (NilEmpty.string_of_uint d) = NilEmpty.string_of_uint d.
Proof. destruct d; reflexivity. Qed.

Lemma strip_uint d :
  strip (NilZero.string_of_uint d) = NilZero.string_of_uint d.
Proof.
  unfold strip. destruct d; try reflexivity;
    unfold NilZero.string_of_uint; rewrite lstrip_uint; apply rstrip_uint.
Qed.

Lemma int_digits_step c k acc s :
  digit_of c = Some k -> int_digits acc (String c s) = int_digits (10 * acc + k) s.
Proof. intros H. cbn [int_digits]. rewrite H. reflexivity. Qed.

Lemma int_digits_acc d (acc : positive) :
  int_digits (Z.pos acc) (NilEmpty.string_of_uint d)
  = Some (Z.pos (Pos.of_uint_acc d acc)).
Proof.
  revert acc.
  induction d as [|d IH|d IH|d IH|d IH|d IH|d IH|d IH|d IH|d IH|d IH];
    intros acc; [reflexivity|..];
    cbn [NilEmpty.string_of_uint Pos.of_uint_acc];
    erewrite int_digits_step by reflexivity;
    rewrite <- IH; f_equal;
    match goal with
    | |- context [ord ?c - 48] =>
        let v := eval vm_compute in (ord c - 48) in change (ord c - 48) with v
    end; lia.
Qed.

Lemma int_digits_zero d :
  int_digits 0 (NilEmpty.string_of_uint d) = Some (Z.of_N (Pos.of_uint d)).
Proof.
  induction d as [|d IH|d IH|d IH|d IH|d IH|d IH|d IH|d IH|d IH|d IH];
    [reflexivity | exact IH | ..];
    cbn [NilEmpty.string_of_uint Pos.of_uint];
    exact (int_digits_acc d _).
Qed.

Lemma int_unsigned_uint d :
  int_unsigned (NilZero.string_of_uint d) = Some (Z.of_uint d).
Proof.
  destruct d; [reflexivity | exact (int_digits_zero d) | ..];
    exact (int_digits_acc d _).
Qed.

Lemma uint_head d :
  exists c s, NilZero.string_of_uint d = String c s /\ is_digit c = true.
Proof. destruct d; eexists _, _; (split; [reflexivity|reflexivity]). Qed.

(** [int(str(z)) == z] *)
Lemma int_of_str_of_int z : int_of_str (str_of_int z) = Some z.
Proof.
  unfold str_of_int, int_of_str.
  rewrite <- (DecimalZ.of_to z) at 2.
  destruct (Z.to_int z) as [d|d]; cbn [NilZero.string_of_int Z.of_int].
  - rewrite strip_uint. rewrite <- int_unsigned_uint.
    destruct (uint_head d) as (c & s & -> & Hc).
    destruct c as [[] [] [] [] [] [] [] []]; try discriminate Hc; reflexivity.
  - assert (strip (String "-" (NilZero.string_of_uint d))
            = String "-" (NilZero.string_of_uint d)) as ->.
    { unfold strip. cbn [lstrip]. change (isspace "-") with false. cbv iota.
      cbn [rstrip]. fold (rstrip (NilZero.string_of_uint d)).
      pose proof (strip_uint d) as H. unfold strip in H.
      destruct (uint_head d) as (c & s & E & Hc). rewrite E in *.
      assert (lstrip (String c s) = String c s) as El.
      { cbn [lstrip]. destruct c as [[] [] [] [] [] [] [] []];
          try discriminate Hc; reflexivity. }
      rewrite El in H. rewrite H. reflexivity. }
    rewrite int_unsigned_uint. reflexivity.
Qed.

Lemma prefix_app p s : String.prefix p (p +:+ s) = true.
Proof.
  induction p as [|c p IH]; [destruct s; reflexivity|].
  change (String c p +:+ s) with (String c (p +:+ s)). cbn [String.prefix].
  destruct (ascii_dec c c); [exact IH | congruence].
Qed.


Lemma remove_first_prefix p s :
  String.prefix p s = true -> remove_first p s = drop (String.length p) s.
Proof. intros H. destruct s; cbn [remove_first]; rewrite H; reflexivity. Qed.

(** [split1] gives two pieces exactly when the separator occurs. *)
Lemma split1_cases c s :
  (has_char c s = false /\ split1 c s = [s])
  \/ (has_char c s = true /\ exists a b, split1 c s = [a; b]).
Proof.
  induction s as [|x s IH]; cbn; [left; auto|].
  destruct (Ascii.eqb x c); [right; eauto|].
  destruct IH as [[H ->] | (H & a & b & ->)]; [left | right]; eauto.
Qed.


End TextFacts.

(** * The program on small inputs *)

Example int_of_str_examples :
  Text.int_of_str " -1_0 " = Some (-10)
  /\ Text.int_of_str "007" = Some 7
  /\ Text.int_of_str "1__0" = None
  /\ Text.int_of_str "+" = None
  /\ Text.int_of_str "2.0" = None.
Proof. repeat split; reflexivity. Qed.

Example split_examples :
  Text.split " admin  1234 x" = ["admin"; "1234"; "x"]
  /\ Text.split1 "," "rice, 2,3" = ["rice"; " 2,3"]
  /\ Text.lower (Text.strip "  Rice, 3 ") = "rice, 3".
Proof. repeat split; reflexivity. Qed.

(** A fresh store, rice at stock 10: the order [rice,3] succeeds with id
    10001, status Processing, and leaves the stock at 7. *)
Example place_first_order :
  let r := add_order (initial_state "2024-01-01") "rice" (PyInt 3) "919900000001" in
  (r.1).1 = Some "10001"
  /\ first_stock "rice" (products_csv (r.1).2) = Some 7
  /\ orders_csv (r.1).2
     = [OrderRow "10001" "rice" "3" "Processing" "2 days"
                 "Cash/UPI on Delivery" "919900000001" "2024-01-01"].
Proof. cbv zeta. repeat split; vm_compute; reflexivity. Qed.

(** [restock rice,50] by the owner on stock 7 gives 57. *)
Example restock_rice :
  let owner := "919900000002" in
  let st := save_products (set_admins (initial_state "2024-01-01") {[owner]})
                          [ProductRow "rice" 55 7] in
  incoming st owner "restock rice,50"
  = (save_products st [ProductRow "rice" 55 57],
     [(owner, MsgRestocked "rice" 50 (Some 57))]).
Proof. vm_compute. reflexivity. Qed.

(** An order for a product that is not in the catalog fails and the ledger
    stays as it was. *)
Example order_unknown_product :
  let st := initial_state "2024-01-01" in
  add_order st "salt" (PyInt 1) "919900000002" = (None, st, []).
Proof. reflexivity. Qed.

(** The owner is alerted when an order leaves fewer than ten units. *)
Example low_stock_alert :
  let owner := "919900000002" in
  let st := set_admins (initial_state "2024-01-01") {[owner]} in
  (add_order st "oil" (PyInt 1) "919900000001").2 = [(owner, MsgLowStock "oil" 9)].
Proof. vm_compute. reflexivity. Qed.


(** * The catalog under order placement and restocking *)

Section Catalog.

Implicit Types (df : list product_row) (item : string) (st : state).

Lemma name_in_first_stock item df :
  name_in item df = true <-> is_Some (first_stock item df).
Proof.
  induction df as [|r df IH]; cbn.
  - split; [discriminate | intros [? ?]; discriminate].
  - destruct (String.eqb (name r) item); [split; eauto | exact IH].
Qed.

(** [add_order] by cases on the stock of the product, which is there
    exactly when the name is among the names. *)
Lemma add_order_cases st item qty cust :
  add_order st item qty cust
  = match first_stock item (products_csv st) with
    | None => (None, st, [])
    | Some current_stock =>
        match py_int qty with
        | None => (None, st, [])
        | Some qty_int =>
            if current_stock <? qty_int then (None, st, [])
            else
              let df := orders_csv st in
              let new_id := Text.str_of_int (next_order_id df) in
              (Some new_id,
               save_orders
                 (save_products st
                    (assign_stock item (current_stock - qty_int) (products_csv st)))
                 (df ++ [OrderRow new_id item (Text.str_of_int qty_int)
                                  "Processing" "2 days" "Cash/UPI on Delivery"
                                  cust (today st)]),
               low_stock_alerts st item (current_stock - qty_int))
        end
    end.
Proof.
  unfold add_order.
  pose proof (name_in_first_stock item (products_csv st)) as Hin.
  destruct (first_stock item (products_csv st)) as [s|].
  - assert (name_in item (products_csv st) = true) as -> by (apply Hin; eauto).
    cbn [negb]. destruct (py_int qty); reflexivity.
  - destruct (name_in item (products_csv st)); [|reflexivity].
    destruct Hin as [Hin _]. destruct (Hin eq_refl). discriminate.
Qed.

Lemma first_stock_assign item v df :
  first_stock item (assign_stock item v df)
  = match first_stock item df with Some _ => Some v | None => None end.
Proof.
  induction df as [|r df IH]; cbn; [reflexivity|].
  destruct (String.eqb (name r) item) eqn:E; cbn; rewrite E; [reflexivity|].
  exact IH.
Qed.

Lemma first_stock_assign_other item item' v df :
  item' <> item ->
  first_stock item' (assign_stock item v df) = first_stock item' df.
Proof.
  intros Hne. unfold assign_stock.
  induction df as [|r df IH]; cbn; [reflexivity|].
  destruct (String.eqb (name r) item) eqn:E; cbn; [|rewrite IH; reflexivity].
  apply String.eqb_eq in E.
  destruct (String.eqb (name r) item') eqn:E'; [|exact IH].
  apply String.eqb_eq in E'. congruence.
Qed.




(** What a successful [add_order] did. *)
Lemma add_order_success st item qty cust new_id st' out :
  add_order st item qty cust = (Some new_id, st', out) ->
  exists current_stock q,
    first_stock item (products_csv st) = Some current_stock
    /\ py_int qty = Some q /\ q <= current_stock
    /\ new_id = Text.str_of_int (next_order_id (orders_csv st))
    /\ products_csv st'
       = assign_stock item (current_stock - q) (products_csv st)
    /\ orders_csv st'
       = orders_csv st ++
         [OrderRow new_id item (Text.str_of_int q) "Processing" "2 days"
                   "Cash/UPI on Delivery" cust (today st)].
Proof.
  rewrite add_order_cases.
  destruct (first_stock item (products_csv st)) as [s|]; [|discriminate].
  destruct (py_int qty) as [q|]; [|discriminate].
  destruct (s <? q) eqn:E; [discriminate|].
  intros [= <- <- <-]. apply Z.ltb_ge in E.
  exists s, q. cbn. repeat split; auto.
Qed.



End Catalog.






(** * Order ids *)

Section OrderIds.

Implicit Types (col : list string) (ids : list Z) (df : list order_row).




Lemma cell_to_int_str z :
  - 2 ^ 63 <= z < 2 ^ 63 -> cell_to_int (Text.str_of_int z) = Some z.
Proof.
  intros H. unfold cell_to_int, in_int64.
  rewrite TextFacts.int_of_str_of_int.
  assert ((- 2 ^ 63 <=? z) = true) as -> by (apply Z.leb_le; lia).
  assert ((z <? 2 ^ 63) = true) as -> by (apply Z.ltb_lt; lia).
  reflexivity.
Qed.

Lemma fold_max_ge ids a :
  a <= fold_left Z.max ids a /\ Forall (fun z => z <= fold_left Z.max ids a) ids.
Proof.
  revert a. induction ids as [|z ids IH]; intros a; cbn.
  - split; [lia | constructor].
  - destruct (IH (Z.max a z)) as [H1 H2]. split; [lia|].
    constructor; [lia | exact H2].
Qed.

Lemma column_max_ge ids : Forall (fun z => z <= column_max ids) ids.
Proof.
  destruct ids as [|z ids]; [constructor|]. cbn.
  destruct (fold_max_ge ids z). constructor; assumption.
Qed.



End OrderIds.



(** * The status simulator *)

Section Simulator.

Implicit Types (df : list order_row) (row : order_row) (st : state).

(** One run changes one row, the first that is processing or shipped, and
    every row before it is one the loop passes over. *)
Lemma advance_first_one_row df df' :
  advance_first df = Some df' ->
  exists pre row post,
    df = pre ++ row :: post
    /\ Forall settled pre
    /\ ((status_is row "processing" = true /\ df' = pre ++ ship row :: post)
        \/ (status_is row "processing" = false
            /\ status_is row "shipped" = true
            /\ df' = pre ++ deliver row :: post)).
Proof.
  revert df'. induction df as [|row df IH]; cbn; intros df' H; [discriminate|].
  destruct (status_is row "processing") eqn:Ep.
  - injection H as <-. exists [], row, df. auto.
  - destruct (status_is row "shipped") eqn:Es.
    + injection H as <-. exists [], row, df. split; [reflexivity|].
      split; [constructor|]. right. auto.
    + destruct (advance_first df) as [d|]; [|discriminate]. injection H as <-.
      destruct (IH _ eq_refl) as (pre & r & post & -> & Hpre & Hcase).
      exists (row :: pre), r, post. split; [reflexivity|].
      split; [constructor; [split; assumption | exact Hpre]|].
      destruct Hcase as [[H1 ->] | (H1 & H2 & ->)]; [left | right]; auto.
Qed.








(** Where no shipped row stands before the first processing row, the loop
    does what the docstring describes. *)
Lemma advance_first_documented df :
  Forall (fun row => status_is row "shipped" = false) df ->
  advance_first df = advance_documented df.
Proof.
  unfold advance_documented. induction 1 as [|row df Hrow H IH]; cbn.
  - reflexivity.
  - rewrite Hrow. destruct (status_is row "processing"); [reflexivity|].
    rewrite IH. destruct (ship_first_processing df); cbn; [reflexivity|].
    destruct (deliver_first_shipped df); reflexivity.
Qed.

End Simulator.

(** C2: the run does not prefer Processing.  On the ledger whose first order
    is Shipped and whose second order is Processing, one run of
    [simulate_order_flow] delivers the first order and leaves the second
    one Processing, where the docstring's rule ships the second order and
    leaves the first one alone. *)
Theorem simulate_order_flow_first_row_wins :
  let o1 := OrderRow "10001" "rice" "3" "Shipped" "Tomorrow"
                     "Cash/UPI on Delivery" "919900000001" "2024-01-01" in
  let o2 := OrderRow "10002" "oil" "1" "Processing" "2 days"
                     "Cash/UPI on Delivery" "919900000002" "2024-01-01" in
  let st := save_orders (initial_state "2024-01-01") [o1; o2] in
  orders_csv (simulate_order_flow st) = [deliver o1; o2]
  /\ advance_documented (orders_csv st) = Some [o1; ship o2].
Proof. cbv zeta. split; vm_compute; reflexivity. Qed.



(** * The notification sweep *)

Section Notifications.

Implicit Types (cache : gmap string string) (row : order_row)
         (df : list order_row) (out : list outgoing).

Lemma updates_for_snoc oid out cust row :
  updates_for oid (out ++ [(cust, MsgOrderUpdate row)])
  = updates_for oid out
    ++ (if String.eqb (order_id row) oid then [(cust, MsgOrderUpdate row)] else []).
Proof.
  unfold updates_for. rewrite List.filter_app. cbn.
  destruct (String.eqb (order_id row) oid); reflexivity.
Qed.

(** A row about another order leaves the cache entry and the updates of
    [oid] as they are. *)
Lemma observe_row_other oid acc row :
  order_id row <> oid ->
  (observe_row acc row).1 !! oid = acc.1 !! oid
  /\ updates_for oid (observe_row acc row).2 = updates_for oid acc.2.
Proof.
  intros Hne. unfold observe_row.
  assert (String.eqb (order_id row) oid = false) as Hb
      by (apply String.eqb_neq; exact Hne).
  destruct (acc.1 !! order_id row) as [last|]; cbn [fst snd].
  - destruct (String.eqb last (Text.strip (status row))); cbn [fst snd]; [auto|].
    rewrite lookup_insert_ne by exact Hne. split; [reflexivity|].
    destruct (nonempty (Text.strip (customer row))); [|reflexivity].
    rewrite updates_for_snoc, Hb. apply app_nil_r.
  - rewrite lookup_insert_ne by exact Hne. auto.
Qed.

Lemma observe_rows_other oid df : forall acc,
  oid ∉ (order_id <$> df) ->
  (fold_left observe_row df acc).1 !! oid = acc.1 !! oid
  /\ updates_for oid (fold_left observe_row df acc).2 = updates_for oid acc.2.
Proof.
  induction df as [|row df IH]; intros acc Hnot; cbn; [auto|].
  rewrite fmap_cons, not_elem_of_cons in Hnot. destruct Hnot as [Hne Hnot].
  destruct (IH (observe_row acc row) Hnot) as [H1 H2].
  destruct (observe_row_other oid acc row) as [H3 H4]; [congruence|].
  split; congruence.
Qed.

(** The first observation of an id seeds the cache and sends nothing. *)
Lemma observe_row_first acc row :
  acc.1 !! order_id row = None ->
  observe_row acc row
  = (<[order_id row := Text.strip (status row)]> acc.1, acc.2).
Proof. intros H. unfold observe_row. rewrite H. reflexivity. Qed.

(** A later observation with a different status updates the cache and
    sends one message when the stripped customer cell is not empty. *)
Lemma observe_row_changed acc row last :
  acc.1 !! order_id row = Some last ->
  last <> Text.strip (status row) ->
  observe_row acc row
  = (<[order_id row := Text.strip (status row)]> acc.1,
     if nonempty (Text.strip (customer row))
     then acc.2 ++ [(Text.strip (customer row), MsgOrderUpdate row)]
     else acc.2).
Proof.
  intros H Hne. unfold observe_row. rewrite H.
  apply String.eqb_neq in Hne. rewrite Hne. reflexivity.
Qed.

Lemma observe_row_same acc row :
  acc.1 !! order_id row = Some (Text.strip (status row)) ->
  observe_row acc row = acc.
Proof.
  intros H. unfold observe_row. rewrite H, String.eqb_refl. reflexivity.
Qed.

End Notifications.



(** * Offers *)

Section Offers.

Implicit Types (offer : string) (offers pre post : list string).

Lemma offer_in_middle offer pre post : offer_in offer (pre ++ offer :: post) = true.
Proof.
  induction pre as [|o pre IH]; cbn.
  - rewrite String.eqb_refl. reflexivity.
  - destruct (String.eqb o offer); [reflexivity | exact IH].
Qed.

Lemma list_remove_middle offer pre post :
  offer ∉ pre -> list_remove offer (pre ++ offer :: post) = pre ++ post.
Proof.
  induction pre as [|o pre IH]; cbn; intros Hnot.
  - rewrite String.eqb_refl. reflexivity.
  - rewrite not_elem_of_cons in Hnot. destruct Hnot as [Hne Hnot].
    assert (String.eqb o offer = false) as -> by (apply String.eqb_neq; congruence).
    rewrite IH by exact Hnot. reflexivity.
Qed.

(** Every entry read from the file is a non-blank line, stripped. *)
Lemma read_offers_nonempty content :
  Forall (fun o => nonempty o = true) (read_offers content).
Proof.
  unfold read_offers. apply Forall_forall. intros o Ho.
  apply list_elem_of_filter in Ho. tauto.
Qed.

End Offers.

(** C9: when the stripped target text is among the offers read from the
    file, [remove offer <text>] rewrites the file without the first
    occurrence of the target, every other entry, later duplicates included,
    kept in order, and replies that the offer was removed; the lines of the
    rewritten file are the remaining entries, none of them blank. *)
Theorem remove_offer_removes_first st from_number rest content pre post :
  offers_file st = Some content ->
  read_offers content = pre ++ Text.strip rest :: post ->
  Text.strip rest ∉ pre ->
  handle_admin_command_text st from_number ("remove offer" +:+ rest)
  = (true, write_offers st (offers_text (pre ++ post)),
     [(from_number, MsgOfferRemoved (Text.strip rest))])
  /\ Forall (fun o => nonempty o = true) (pre ++ post).
Proof.
  intros Hfile Hread Hnot.
  pose proof (read_offers_nonempty content) as Hne. rewrite Hread in Hne.
  apply Forall_app in Hne as [Hpre Hpost].
  inversion Hpost as [|? ? Hoffer Hpost']; subst.
  split; [|apply Forall_app; split; assumption].
  unfold handle_admin_command_text.
  change (Text.startswith ("remove offer" +:+ rest) "restock ") with false.
  change (Text.startswith ("remove offer" +:+ rest) "add offer") with false.
  unfold Text.startswith at 1.
  rewrite TextFacts.remove_first_prefix, TextFacts.prefix_app
    by apply TextFacts.prefix_app.
  change (Text.drop _ ("remove offer" +:+ rest)) with rest.
  cbv iota. rewrite Hoffer, Hfile. cbn [negb]. rewrite Hread.
  rewrite offer_in_middle, list_remove_middle by exact Hnot. reflexivity.
Qed.

Lemma remove_offer_removes_first_witness :
  let content :=
    offers_text ["5% off on oil"; "free tea"; EmptyString; "5% off on oil"] in
  let st := write_offers (initial_state "2024-01-01") content in
  handle_admin_command_text st "919900000002" "remove offer 5% off on oil"
  = (true, write_offers st (offers_text ["free tea"; "5% off on oil"]),
     [("919900000002", MsgOfferRemoved "5% off on oil")])
  /\ Forall (fun o => nonempty o = true) ["free tea"; "5% off on oil"].
Proof.
  intros content st.
  apply (remove_offer_removes_first st "919900000002" " 5% off on oil" content
           [] ["free tea"; "5% off on oil"]).
  - reflexivity.
  - vm_compute. reflexivity.
  - apply not_elem_of_nil.
Defined.

(** * The command router *)

Section Router.

Implicit Types (st : state) (from_number text body : string).

Lemma add_order_keeps_sessions st item qty cust :
  user_sessions (add_order st item qty cust).1.2 = user_sessions st
  /\ admin_numbers (add_order st item qty cust).1.2 = admin_numbers st.
Proof.
  rewrite add_order_cases.
  destruct (first_stock item (products_csv st)); [|auto].
  destruct (py_int qty); [|auto].
  destruct (_ <? _); auto.
Qed.


Lemma new_order_reply_clears st from_number text :
  user_sessions (new_order_reply st from_number text).1
  = delete from_number (user_sessions st)
  /\ admin_numbers (new_order_reply st from_number text).1 = admin_numbers st.
Proof.
  unfold new_order_reply.
  destruct (Text.has_char "," text); [|auto].
  destruct (Text.strip <$> Text.split1 "," text) as [|item [|qty [|? ?]]]; auto.
  destruct (Text.int_of_str qty) as [q|]; [|auto].
  pose proof (add_order_keeps_sessions (pop_session st from_number) item
                (PyInt q) from_number) as [H1 H2].
  destruct (add_order _ _ _ _) as [[new_id st'] alerts].
  cbn [fst snd] in H1, H2. destruct (falsy new_id); cbn [fst]; auto.
Qed.


End Router.




Section Failures.

Implicit Types (st : state) (from_number body : string).


(** The three ways [add_order] fails, and no other. *)
Lemma add_order_failure_causes st item qty cust :
  (add_order st item qty cust).1.1 = None ->
  name_in item (products_csv st) = false
  \/ py_int qty = None
  \/ exists current_stock q,
      first_stock item (products_csv st) = Some current_stock
      /\ py_int qty = Some q /\ current_stock < q.
Proof.
  rewrite add_order_cases.
  destruct (first_stock item (products_csv st)) as [s|] eqn:Es.
  - destruct (py_int qty) as [q|]; [|auto].
    destruct (s <? q) eqn:E; [|discriminate].
    intros _. right. right. exists s, q. apply Z.ltb_lt in E. auto.
  - intros _. left. destruct (name_in item (products_csv st)) eqn:En; [|reflexivity].
    apply name_in_first_stock in En as [? En]. congruence.
Qed.

(** A quantity the router's own [int(qty)] rejects never reaches
    [add_order]; the reply is the one of the [except] branch. *)
Lemma new_order_reply_int_raised st from_number text ordered qty_text :
  Text.strip <$> Text.split1 "," text = [ordered; qty_text] ->
  Text.int_of_str qty_text = None ->
  new_order_reply st from_number text
  = (pop_session st from_number, [(from_number, MsgCouldNotSaveOrder)]).
Proof.
  intros Hsplit Hq. unfold new_order_reply.
  destruct (TextFacts.split1_cases "," text) as [[_ E] | [-> _]];
    [rewrite E in Hsplit; discriminate|].
  rewrite Hsplit, Hq. reflexivity.
Qed.

End Failures.






(** * Further properties of order placement *)

Section Placement.

Implicit Types (st : state) (item : string).

Lemma assign_stock_names item v df :
  name <$> assign_stock item v df = name <$> df
  /\ price <$> assign_stock item v df = price <$> df.
Proof.
  unfold assign_stock. rewrite <- !list_fmap_compose. split;
    apply list_fmap_ext; intros i r _; cbn;
    destruct (String.eqb (name r) item); reflexivity.
Qed.



End Placement.

(** X1: [add_order], whether it succeeds or fails, keeps the names and the
    prices of the catalog rows and the stock of every product other than the
    one ordered, and it leaves the offers file, the sessions, the owners and
    the notification cache alone. *)
Theorem add_order_frame st item qty cust :
  let st' := ((add_order st item qty cust).1).2 in
  name <$> products_csv st' = name <$> products_csv st
  /\ price <$> products_csv st' = price <$> products_csv st
  /\ (forall other, other <> item ->
        first_stock other (products_csv st') = first_stock other (products_csv st))
  /\ offers_file st' = offers_file st
  /\ user_sessions st' = user_sessions st
  /\ admin_numbers st' = admin_numbers st
  /\ last_order_status st' = last_order_status st.
Proof.
  cbv zeta. rewrite add_order_cases.
  destruct (first_stock item (products_csv st)) as [s|]; [|cbn; auto 10].
  destruct (py_int qty) as [q|]; [|cbn; auto 10].
  destruct (s <? q); cbn; [auto 10|].
  destruct (assign_stock_names item (s - q) (products_csv st)) as [Hn Hp].
  repeat split; try assumption.
  intros other Hne. apply first_stock_assign_other. exact Hne.
Qed.

(** X2: the ledger is only ever appended to by [add_order]: a failed call
    returns the state it was given and sends nothing; a successful call adds
    one row after the rows that were there, a Processing order of the
    customer dated today, whose quantity cell reads back as the integer
    ordered. *)
Theorem add_order_appends st item qty cust :
  let r := add_order st item qty cust in
  match (r.1).1 with
  | None => r = (None, st, [])
  | Some new_id =>
      exists q row,
        py_int qty = Some q
        /\ orders_csv (r.1).2 = orders_csv st ++ [row]
        /\ row = OrderRow new_id item (Text.str_of_int q) "Processing" "2 days"
                          "Cash/UPI on Delivery" cust (today st)
        /\ Text.int_of_str (quantity row) = Some q
        /\ status_is row "processing" = true
  end.
Proof.
  cbv zeta. rewrite add_order_cases.
  destruct (first_stock item (products_csv st)) as [s|]; [|reflexivity].
  destruct (py_int qty) as [q|]; [|reflexivity].
  destruct (s <? q); [reflexivity|]. cbn.
  eexists q, _. split; [reflexivity|]. split; [reflexivity|].
  split; [reflexivity|]. split; [|reflexivity].
  cbn. apply TextFacts.int_of_str_of_int.
Qed.

(** X3: a successful [add_order] that leaves the product with fewer than ten
    units alerts every owner exactly once and nobody else; with ten units or
    more left it sends nothing. *)
Theorem add_order_low_stock_alerts st item qty cust new_id st' out left :
  add_order st item qty cust = (Some new_id, st', out) ->
  first_stock item (products_csv st') = Some left ->
  (left < LOW_STOCK_THRESHOLD ->
   NoDup out
   /\ forall m, m ∈ out <->
                exists a, a ∈ admin_numbers st /\ m = (a, MsgLowStock item left))
  /\ (LOW_STOCK_THRESHOLD <= left -> out = []).
Proof.
  rewrite add_order_cases.
  destruct (first_stock item (products_csv st)) as [s|] eqn:Es; [|discriminate].
  destruct (py_int qty) as [q|]; [|discriminate].
  destruct (s <? q); [discriminate|]. cbn. intros [= <- <- <-]. cbn.
  rewrite first_stock_assign, Es. intros [= <-].
  unfold low_stock_alerts. split; intros Hlow.
  - assert ((s - q <? LOW_STOCK_THRESHOLD) = true) as ->
        by (apply Z.ltb_lt; exact Hlow).
    split.
    + apply NoDup_fmap_2; [|apply NoDup_elements].
      intros a b [= ->]. reflexivity.
    + intros m. rewrite list_elem_of_fmap. split.
      * intros (a & -> & Ha). exists a. split; [|reflexivity].
        apply elem_of_elements, Ha.
      * intros (a & Ha & ->). exists a. split; [reflexivity|].
        apply elem_of_elements, Ha.
  - assert ((s - q <? LOW_STOCK_THRESHOLD) = false) as ->
        by (apply Z.ltb_ge; exact Hlow).
    reflexivity.
Qed.

Lemma add_order_low_stock_alerts_witness :
  let owner := "919900000002" in
  let st := set_admins (initial_state "2024-01-01") {[owner]} in
  let r := add_order st "oil" (PyInt 1) "919900000001" in
  (9 < LOW_STOCK_THRESHOLD ->
   NoDup r.2
   /\ forall m, m ∈ r.2 <->
                exists a, a ∈ admin_numbers st /\ m = (a, MsgLowStock "oil" 9))
  /\ (LOW_STOCK_THRESHOLD <= 9 -> r.2 = []).
Proof.
  intros owner st r.
  apply (add_order_low_stock_alerts st "oil" (PyInt 1) "919900000001"
           "10001" (r.1).2 r.2 9); vm_compute; reflexivity.
Defined.

(** * Further properties of the owner's commands *)

Section OwnerCommands.

Implicit Types (st : state) (from_number args : string).



End OwnerCommands.





(** * Further properties of the router *)

(** Case analysis on every test and match of the goal. *)
Ltac branches :=
  repeat match goal with
         | |- context [if ?b then _ else _] => destruct b
         | |- context [match ?x with _ => _ end] => destruct x
         end.

Section RouterFrames.

Implicit Types (st : state) (from_number text body : string).

(** The owner's commands touch the catalog and the offers file only. *)
Lemma handle_admin_command_text_frame st from_number text :
  let st' := ((handle_admin_command_text st from_number text).1).2 in
  orders_csv st' = orders_csv st
  /\ user_sessions st' = user_sessions st
  /\ admin_numbers st' = admin_numbers st
  /\ last_order_status st' = last_order_status st.
Proof.
  cbv zeta. unfold handle_admin_command_text. branches; cbn; auto.
Qed.

(** The numeric options of the owner only read. *)
Lemma admin_menu_reads st from_number text :
  (admin_menu st from_number text).1 = st.
Proof. unfold admin_menu. branches; reflexivity. Qed.

(** The menu changes nothing but the sender's session. *)
Lemma customer_menu_frame st from_number text :
  let st' := (customer_menu st from_number text).1 in
  products_csv st' = products_csv st
  /\ orders_csv st' = orders_csv st
  /\ offers_file st' = offers_file st
  /\ admin_numbers st' = admin_numbers st
  /\ last_order_status st' = last_order_status st
  /\ forall other, other <> from_number ->
       user_sessions st' !! other = user_sessions st !! other.
Proof.
  cbv zeta. unfold customer_menu, pop_session.
  branches; cbn; repeat split; auto; intros other Hne;
    first [apply lookup_delete_ne | apply lookup_insert_ne]; congruence.
Qed.

Lemma order_status_reply_state st from_number text :
  (order_status_reply st from_number text).1 = pop_session st from_number.
Proof. unfold order_status_reply. branches; reflexivity. Qed.

(** The new-order prompt changes the catalog and the ledger through
    [add_order] only. *)
Lemma new_order_reply_frame st from_number text :
  let st' := (new_order_reply st from_number text).1 in
  offers_file st' = offers_file st
  /\ last_order_status st' = last_order_status st.
Proof.
  cbv zeta. unfold new_order_reply.
  destruct (Text.has_char "," text); [|auto].
  destruct (Text.strip <$> Text.split1 "," text) as [|item [|qty [|? ?]]]; auto.
  destruct (Text.int_of_str qty) as [q|]; [|auto].
  pose proof (add_order_frame (pop_session st from_number) item (PyInt q)
                from_number) as (_ & _ & _ & Ho & _ & _ & Hc).
  cbv zeta in Ho, Hc.
  destruct (add_order _ _ _ _) as [[new_id st'] alerts].
  destruct (falsy new_id); cbn [fst snd] in *; auto.
Qed.

Lemma incoming_owner st from_number body :
  from_number ∈ admin_numbers st ->
  let text := Text.lower (Text.strip body) in
  Text.startswith text "admin" = false ->
  String.eqb text "exit" = false ->
  incoming st from_number body
  = let '(handled, st', out) := handle_admin_command_text st from_number text in
    if handled then (st', out) else admin_menu st from_number text.
Proof.
  intros Hin text Hadm Hexit. unfold incoming. fold text.
  rewrite Hadm, Hexit, (bool_decide_eq_true_2 _ Hin). reflexivity.
Qed.

End RouterFrames.

Section RouterAuthority.

Implicit Types (st : state) (from_number text body : string).


(** The sessions of the other senders after a message. *)
Lemma incoming_other_sessions st from_number body other :
  other <> from_number ->
  user_sessions (incoming st from_number body).1 !! other
  = user_sessions st !! other.
Proof.
  intros Hne. unfold incoming. set (text := Text.lower (Text.strip body)).
  destruct (Text.startswith text "admin").
  { unfold admin_login. destruct (Text.split text) as [|? [|pin ?]]; try reflexivity.
    destruct (String.eqb pin ADMIN_PIN); reflexivity. }
  destruct (_ && _); [reflexivity|].
  destruct (bool_decide _).
  - pose proof (handle_admin_command_text_frame st from_number text)
      as (_ & Hs & _). cbv zeta in Hs.
    destruct (handle_admin_command_text st from_number text) as [[[] st'] out];
      [cbn in *; rewrite Hs; reflexivity|].
    rewrite admin_menu_reads. reflexivity.
  - unfold customer_flow. destruct (user_sessions st !! from_number) as [[]|].
    + rewrite order_status_reply_state. cbn. apply lookup_delete_ne. congruence.
    + destruct (new_order_reply_clears st from_number text) as [-> _].
      apply lookup_delete_ne. congruence.
    + apply customer_menu_frame. exact Hne.
Qed.

End RouterAuthority.



(** X7: logging in with the PIN and then sending [exit] brings a sender who
    was not an owner back to the state before the two messages, whatever
    session was pending; the two replies are the activation and the exit
    notice. *)
Theorem login_then_exit st from_number body1 body2 w rest :
  from_number ∉ admin_numbers st ->
  Text.startswith (Text.lower (Text.strip body1)) "admin" = true ->
  Text.split (Text.lower (Text.strip body1)) = w :: ADMIN_PIN :: rest ->
  Text.lower (Text.strip body2) = "exit" ->
  let r1 := incoming st from_number body1 in
  let r2 := incoming r1.1 from_number body2 in
  r1.2 = [(from_number, MsgAdminActivated)]
  /\ from_number ∈ admin_numbers r1.1
  /\ r2 = (st, [(from_number, MsgExitedAdmin)]).
Proof.
  intros Hno Hadm Hsplit Hexit r1 r2. subst r2 r1.
  assert (incoming st from_number body1
          = (set_admins st ({[from_number]} ∪ admin_numbers st),
             [(from_number, MsgAdminActivated)])) as ->.
  { unfold incoming. rewrite Hadm. unfold admin_login. rewrite Hsplit.
    rewrite String.eqb_refl. reflexivity. }
  cbn [fst snd].
  split; [reflexivity|].
  split; [cbn; apply elem_of_union; left; apply elem_of_singleton; reflexivity|].
  unfold incoming. rewrite Hexit.
  change (Text.startswith "exit" "admin") with false. cbv iota.
  rewrite String.eqb_refl. cbn [andb set_admins admin_numbers].
  rewrite bool_decide_eq_true_2
    by (apply elem_of_union; left; apply elem_of_singleton; reflexivity).
  destruct st as [p o f s a c d]. cbn in *.
  assert (({[from_number]} ∪ a) ∖ {[from_number]} = a) as ->.
  { apply set_eq. intros x.
    rewrite elem_of_difference, elem_of_union, elem_of_singleton.
    split; [tauto|]. intros Hx. split; [auto | congruence]. }
  reflexivity.
Qed.

Lemma login_then_exit_witness :
  let st := set_sessions (initial_state "2024-01-01")
                         {["919900000002" := awaiting_order_id]} in
  let r1 := incoming st "919900000002" " ADMIN 1234 " in
  let r2 := incoming r1.1 "919900000002" "Exit" in
  r1.2 = [("919900000002", MsgAdminActivated)]
  /\ "919900000002" ∈ admin_numbers r1.1
  /\ r2 = (st, [("919900000002", MsgExitedAdmin)]).
Proof.
  intros st.
  apply (login_then_exit st "919900000002" " ADMIN 1234 " "Exit" "admin" []).
  - apply not_elem_of_empty.
  - reflexivity.
  - reflexivity.
  - reflexivity.
Defined.

Lemma owner_mode_cache st from_number body :
  from_number ∈ admin_numbers st ->
  last_order_status (incoming st from_number body).1 = last_order_status st.
Proof.
  intros Hin. unfold incoming.
  set (text := Text.lower (Text.strip body)).
  destruct (Text.startswith text "admin").
  { unfold admin_login. destruct (Text.split text) as [|? [|pin ?]]; auto.
    destruct (String.eqb pin ADMIN_PIN); auto. }
  destruct (_ && _); [auto|].
  rewrite (bool_decide_eq_true_2 _ Hin).
  pose proof (handle_admin_command_text_frame st from_number text)
    as (_ & _ & _ & Hc). cbv zeta in Hc.
  destruct (handle_admin_command_text st from_number text) as [[[] st'] out];
    [auto|]. rewrite admin_menu_reads. auto.
Qed.

(** X8: a message from an owner never places an order and never starts or
    ends a prompt: whatever the text, the ledger, the sessions and the
    notification cache are the ones before the message. *)
Theorem owner_mode_frame st from_number body :
  from_number ∈ admin_numbers st ->
  let st' := (incoming st from_number body).1 in
  orders_csv st' = orders_csv st
  /\ user_sessions st' = user_sessions st
  /\ last_order_status st' = last_order_status st.
Proof.
  intros Hin st'. subst st'. unfold incoming.
  set (text := Text.lower (Text.strip body)).
  destruct (Text.startswith text "admin").
  { unfold admin_login. destruct (Text.split text) as [|? [|pin ?]]; auto.
    destruct (String.eqb pin ADMIN_PIN); auto. }
  destruct (_ && _); [auto|].
  rewrite (bool_decide_eq_true_2 _ Hin).
  pose proof (handle_admin_command_text_frame st from_number text)
    as (Ho & Hs & _ & Hc). cbv zeta in Ho, Hs, Hc.
  destruct (handle_admin_command_text st from_number text) as [[[] st'] out];
    [auto|]. rewrite admin_menu_reads. auto.
Qed.

Lemma owner_mode_frame_witness :
  let owner := "919900000002" in
  let st := set_sessions (set_admins (initial_state "2024-01-01") {[owner]})
                         {[owner := awaiting_new_order]} in
  let st' := (incoming st owner "rice,3").1 in
  orders_csv st' = orders_csv st
  /\ user_sessions st' = user_sessions st
  /\ last_order_status st' = last_order_status st.
Proof.
  intros owner st.
  apply (owner_mode_frame st owner "rice,3").
  vm_compute. reflexivity.
Defined.



(** X10: a message concerns the session of its sender only: the pending
    prompt of every other number is the same before and after, and the
    router never writes the notification cache. *)
Theorem sessions_are_per_sender st from_number body :
  let st' := (incoming st from_number body).1 in
  (forall other, other <> from_number ->
     user_sessions st' !! other = user_sessions st !! other)
  /\ last_order_status st' = last_order_status st.
Proof.
  intros st'. subst st'. split.
  - intros other Hne. apply incoming_other_sessions, Hne.
  - destruct (decide (from_number ∈ admin_numbers st)) as [Hin|Hno].
    + apply (owner_mode_cache st from_number body Hin).
    + unfold incoming. set (text := Text.lower (Text.strip body)).
      destruct (Text.startswith text "admin") eqn:Hadm.
      { unfold admin_login. destruct (Text.split text) as [|? [|pin ?]]; auto.
        destruct (String.eqb pin ADMIN_PIN); auto. }
      rewrite (bool_decide_eq_false_2 _ Hno), andb_false_r.
      unfold customer_flow. destruct (user_sessions st !! from_number) as [[]|].
      * rewrite order_status_reply_state. reflexivity.
      * apply new_order_reply_frame.
      * apply customer_menu_frame.
Qed.

Section MenuFlows.

Implicit Types (st : state) (from_number text body : string).


Lemma find_order_first oid pre row post :
  order_id row = oid -> oid ∉ (order_id <$> pre) ->
  find_order oid (pre ++ row :: post) = Some row.
Proof.
  intros Hid. induction pre as [|r pre IH]; cbn; intros Hnot.
  - rewrite Hid, String.eqb_refl. reflexivity.
  - rewrite not_elem_of_cons in Hnot. destruct Hnot as [Hne Hnot].
    assert (String.eqb (order_id r) oid = false) as ->
        by (apply String.eqb_neq; congruence).
    apply IH, Hnot.
Qed.


End MenuFlows.





(** * Further properties of the two sweeps *)

Section Sweeps.

Implicit Types (cache : gmap string string) (row : order_row)
         (df : list order_row) (out : list outgoing).

(** After a row has been observed the cache holds its status. *)
Lemma observe_row_cache acc row :
  (observe_row acc row).1 !! order_id row = Some (Text.strip (status row)).
Proof.
  unfold observe_row. destruct (acc.1 !! order_id row) as [last|] eqn:E.
  - destruct (String.eqb last (Text.strip (status row))) eqn:Eb; cbn [fst].
    + apply String.eqb_eq in Eb. congruence.
    + apply lookup_insert_eq.
  - apply lookup_insert_eq.
Qed.

(** Rows the cache agrees with are passed over. *)
Lemma observe_rows_synced df : forall acc,
  synced acc.1 df -> fold_left observe_row df acc = acc.
Proof.
  induction df as [|row df IH]; intros acc H; [reflexivity|].
  inversion H as [|? ? Hrow Hrest]; subst. cbn [fold_left].
  rewrite (observe_row_same _ _ Hrow). apply IH, Hrest.
Qed.

(** A sweep over rows with distinct ids leaves the cache in agreement with
    them. *)
Lemma observe_rows_sync df : forall acc,
  NoDup (order_id <$> df) -> synced (fold_left observe_row df acc).1 df.
Proof.
  induction df as [|row df IH]; intros acc Hnd; [constructor|].
  rewrite fmap_cons, NoDup_cons in Hnd. destruct Hnd as [Hnot Hnd].
  cbn [fold_left]. constructor; [|apply IH, Hnd].
  destruct (observe_rows_other (order_id row) df (observe_row acc row) Hnot)
    as [-> _].
  apply observe_row_cache.
Qed.

(** Ids the cache has never seen are seeded without a message. *)
Lemma observe_rows_fresh df : forall acc,
  NoDup (order_id <$> df) ->
  Forall (fun row => acc.1 !! order_id row = None) df ->
  (fold_left observe_row df acc).2 = acc.2.
Proof.
  induction df as [|row df IH]; intros acc Hnd Hfresh; [reflexivity|].
  rewrite fmap_cons, NoDup_cons in Hnd. destruct Hnd as [Hnot Hnd].
  inversion Hfresh as [|? ? Hrow Hrest]; subst. cbn [fold_left].
  rewrite (observe_row_first _ _ Hrow).
  rewrite IH; [reflexivity | exact Hnd |].
  rewrite Forall_forall in Hrest |- *. intros r Hr. cbn [fst].
  rewrite lookup_insert_ne; [apply Hrest, Hr|].
  intros E. apply Hnot. rewrite E. apply list_elem_of_fmap. eauto.
Qed.

(** Every message of a sweep is the update of a row, sent to the row's
    customer. *)
Lemma observe_rows_messages df : forall acc m,
  m ∈ (fold_left observe_row df acc).2 ->
  m ∈ acc.2
  \/ exists row, row ∈ df
       /\ m = (Text.strip (customer row), MsgOrderUpdate row)
       /\ nonempty (Text.strip (customer row)) = true.
Proof.
  induction df as [|row df IH]; intros acc m Hm; [left; exact Hm|].
  cbn [fold_left] in Hm. apply IH in Hm as [Hm | (r & Hr & ? & ?)].
  - unfold observe_row in Hm.
    destruct (acc.1 !! order_id row) as [last|]; [|left; exact Hm].
    destruct (String.eqb last _); [left; exact Hm|]. cbn [snd] in Hm.
    destruct (nonempty (Text.strip (customer row))) eqn:Ec; [|left; exact Hm].
    apply elem_of_app in Hm as [Hm | Hm]; [left; exact Hm|].
    apply list_elem_of_singleton in Hm. right. exists row.
    split; [left | auto].
  - right. exists r. split; [right; exact Hr | auto].
Qed.

Lemma observe_rows_count df : forall acc,
  (length (fold_left observe_row df acc).2 <= length acc.2 + length df)%nat.
Proof.
  induction df as [|row df IH]; intros acc; cbn [fold_left length]; [lia|].
  etransitivity; [apply IH|].
  assert (length (observe_row acc row).2 <= S (length acc.2))%nat; [|lia].
  unfold observe_row. destruct (acc.1 !! order_id row); [|cbn; lia].
  destruct (String.eqb _ _); [lia|]. cbn [snd].
  destruct (nonempty _); [rewrite length_app; cbn; lia | lia].
Qed.

(** The simulator writes the status and the eta of a row, nothing else. *)
Lemma advance_first_column {A} (f : order_row -> A) df df' :
  (forall row, f (ship row) = f row) ->
  (forall row, f (deliver row) = f row) ->
  advance_first df = Some df' -> f <$> df' = f <$> df.
Proof.
  intros Hship Hdel H.
  destruct (advance_first_one_row _ _ H)
    as (pre & row & post & -> & _ & [[_ ->] | (_ & _ & ->)]);
    rewrite !fmap_app, !fmap_cons; [rewrite Hship | rewrite Hdel]; reflexivity.
Qed.

End Sweeps.

(** X13: a sweep over a ledger with distinct order ids, run again with
    nothing changed in between, sends nothing and leaves the state as the
    first run left it. *)
Theorem check_order_updates_twice st :
  NoDup (order_id <$> orders_csv st) ->
  let r := check_order_updates st in
  check_order_updates r.1 = (r.1, []).
Proof.
  intros Hnd r. subst r. unfold check_order_updates at 1. cbn [fst].
  unfold sweep_rows.
  cbn [last_order_status orders_csv set_last_status fst snd].
  rewrite observe_rows_synced.
  - destruct st; reflexivity.
  - cbn [fst]. apply observe_rows_sync, Hnd.
Qed.

Lemma check_order_updates_twice_witness :
  let row := OrderRow "10001" "rice" "3" "Shipped" "Tomorrow"
                      "Cash/UPI on Delivery" "919900000001" "2024-01-01" in
  let st := set_last_status (save_orders (initial_state "2024-01-01") [row])
                            {["10001" := "Processing"]} in
  let r := check_order_updates st in
  r.2 = [("919900000001", MsgOrderUpdate row)]
  /\ check_order_updates r.1 = (r.1, []).
Proof.
  intros row st r. split; [reflexivity|].
  apply (check_order_updates_twice st).
  cbn. apply NoDup_singleton.
Defined.

(** X14: a sweep writes nothing but the notification cache, sends at most
    one message per row of the ledger, and every message it sends is the
    update of a row of the ledger addressed to that row's customer cell,
    stripped and not empty. *)
Theorem check_order_updates_sends_updates_only st :
  let r := check_order_updates st in
  products_csv r.1 = products_csv st
  /\ orders_csv r.1 = orders_csv st
  /\ offers_file r.1 = offers_file st
  /\ user_sessions r.1 = user_sessions st
  /\ admin_numbers r.1 = admin_numbers st
  /\ (length r.2 <= length (orders_csv st))%nat
  /\ forall m, m ∈ r.2 ->
       exists row, row ∈ orders_csv st
         /\ m = (Text.strip (customer row), MsgOrderUpdate row)
         /\ nonempty (Text.strip (customer row)) = true.
Proof.
  cbv zeta. unfold check_order_updates, sweep_rows. cbn [fst snd].
  repeat split.
  - apply (observe_rows_count (orders_csv st) (last_order_status st, [])).
  - intros m Hm. apply observe_rows_messages in Hm as [Hm | Hm]; [|exact Hm].
    cbn in Hm. apply elem_of_nil in Hm. destruct Hm.
Qed.

(** X15: the first sweep after a start, with the cache empty, over a ledger
    with distinct order ids notifies nobody, whatever the statuses, and
    leaves the cache in agreement with the ledger. *)
Theorem check_order_updates_first_run st :
  NoDup (order_id <$> orders_csv st) ->
  last_order_status st = ∅ ->
  let r := check_order_updates st in
  r.2 = [] /\ synced (last_order_status r.1) (orders_csv st).
Proof.
  intros Hnd Hempty r. subst r. unfold check_order_updates, sweep_rows.
  cbn [fst snd last_order_status set_last_status]. split.
  - rewrite observe_rows_fresh; [reflexivity | exact Hnd |].
    apply Forall_forall. intros row _. cbn [fst]. rewrite Hempty.
    apply lookup_empty.
  - apply observe_rows_sync, Hnd.
Qed.

Lemma check_order_updates_first_run_witness :
  let row1 := OrderRow "10001" "rice" "3" "Shipped" "Tomorrow"
                       "Cash/UPI on Delivery" "919900000001" "2024-01-01" in
  let row2 := OrderRow "10002" "oil" "1" "Processing" "2 days"
                       "Cash/UPI on Delivery" "919900000002" "2024-01-01" in
  let st := save_orders (initial_state "2024-01-01") [row1; row2] in
  let r := check_order_updates st in
  r.2 = [] /\ synced (last_order_status r.1) (orders_csv st).
Proof.
  intros row1 row2 st.
  apply (check_order_updates_first_run st); [|reflexivity].
  cbn. apply NoDup_cons. split; [|apply NoDup_singleton].
  rewrite list_elem_of_singleton. discriminate.
Defined.

(** X16: a run of the simulator keeps the number of orders and, row by row,
    the id, the product, the quantity, the payment mode, the customer and
    the date; it writes nothing but the ledger. *)
Theorem simulate_order_flow_frame st :
  let st' := simulate_order_flow st in
  order_id <$> orders_csv st' = order_id <$> orders_csv st
  /\ product <$> orders_csv st' = product <$> orders_csv st
  /\ quantity <$> orders_csv st' = quantity <$> orders_csv st
  /\ payment <$> orders_csv st' = payment <$> orders_csv st
  /\ customer <$> orders_csv st' = customer <$> orders_csv st
  /\ date <$> orders_csv st' = date <$> orders_csv st
  /\ products_csv st' = products_csv st
  /\ offers_file st' = offers_file st
  /\ user_sessions st' = user_sessions st
  /\ admin_numbers st' = admin_numbers st
  /\ last_order_status st' = last_order_status st.
Proof.
  cbv zeta. unfold simulate_order_flow.
  destruct (advance_first (orders_csv st)) as [df|] eqn:E; [|auto 12].
  cbn [save_orders orders_csv products_csv offers_file user_sessions
       admin_numbers last_order_status].
  repeat split;
    (eapply advance_first_column; [| |exact E]; intros row; reflexivity).
Qed.

Section Transitions.

Implicit Types (cache : gmap string string) (row : order_row)
         (df : list order_row).

Lemma synced_insert_other cache oid v df :
  oid ∉ (order_id <$> df) -> synced cache df -> synced (<[oid := v]> cache) df.
Proof.
  unfold synced. rewrite !Forall_forall. intros Hnot H row Hrow.
  rewrite lookup_insert_ne; [apply H, Hrow|].
  intros E. apply Hnot. rewrite E. apply list_elem_of_fmap. eauto.
Qed.

(** The status the simulator writes is never the one it found. *)
Lemma advanced_status_differs row :
  (status_is row "processing" = true ->
   String.eqb (Text.strip (status row)) (Text.strip (status (ship row))) = false)
  /\ (status_is row "shipped" = true ->
      String.eqb (Text.strip (status row)) (Text.strip (status (deliver row)))
      = false).
Proof.
  unfold status_is. split; intros H; apply String.eqb_neq; intros E;
    rewrite E in H; discriminate H.
Qed.

(** The sweep over a ledger in which one row, of an id that occurs once,
    has a status the cache does not hold, every other row being one the
    cache agrees with. *)
Lemma sweep_one_change cache pre row row' post :
  order_id row' = order_id row ->
  customer row' = customer row ->
  order_id row ∉ (order_id <$> pre) ->
  order_id row ∉ (order_id <$> post) ->
  synced cache (pre ++ row :: post) ->
  String.eqb (Text.strip (status row)) (Text.strip (status row')) = false ->
  sweep_rows cache (pre ++ row' :: post)
  = (<[order_id row := Text.strip (status row')]> cache,
     if nonempty (Text.strip (customer row))
     then [(Text.strip (customer row), MsgOrderUpdate row')] else []).
Proof.
  intros Hid Hcust Hpre Hpost Hsync Hdiff. unfold sweep_rows.
  apply Forall_app in Hsync as [Hs1 Hs2].
  inversion Hs2 as [|? ? Hrow Hs3]; subst.
  rewrite fold_left_app. cbn [fold_left].
  rewrite (observe_rows_synced pre (cache, [])) by exact Hs1.
  assert (observe_row (cache, []) row'
          = (<[order_id row := Text.strip (status row')]> cache,
             if nonempty (Text.strip (customer row))
             then [(Text.strip (customer row), MsgOrderUpdate row')] else []))
    as ->.
  { unfold observe_row. cbn [fst snd]. rewrite Hid, Hrow, Hdiff, Hcust.
    reflexivity. }
  apply observe_rows_synced. cbn [fst].
  apply synced_insert_other; assumption.
Qed.

End Transitions.

(** X17: one status transition gives one notification.  On a ledger with
    distinct order ids that the cache agrees with, a run of the simulator
    followed by a sweep sends exactly one update, about the order the
    simulator advanced and to its customer (none when the customer cell is
    blank), and nothing when the simulator found no order to advance; the
    cache agrees with the ledger again afterwards. *)
Theorem transition_notified_once st :
  NoDup (order_id <$> orders_csv st) ->
  synced (last_order_status st) (orders_csv st) ->
  let st1 := simulate_order_flow st in
  let r := check_order_updates st1 in
  synced (last_order_status r.1) (orders_csv r.1)
  /\ match advance_first (orders_csv st) with
     | None => st1 = st /\ r.2 = []
     | Some _ =>
         exists pre row row' post,
           orders_csv st = pre ++ row :: post
           /\ orders_csv st1 = pre ++ row' :: post
           /\ (row' = ship row \/ row' = deliver row)
           /\ r.2 = if nonempty (Text.strip (customer row))
                    then [(Text.strip (customer row), MsgOrderUpdate row')]
                    else []
     end.
Proof.
  intros Hnd Hsync st1 r. subst r st1. unfold simulate_order_flow.
  destruct (advance_first (orders_csv st)) as [df'|] eqn:E.
  - destruct (advance_first_one_row _ _ E)
      as (pre & row & post & Hdf & _ & Hcase).
    rewrite Hdf in Hnd, Hsync.
    rewrite fmap_app, fmap_cons, NoDup_app in Hnd.
    destruct Hnd as (_ & Hcross & Hnd). apply NoDup_cons in Hnd as [Hpost _].
    assert (order_id row ∉ (order_id <$> pre)) as Hpre.
    { intros Hin. apply (Hcross _ Hin). left. }
    assert (exists row', df' = pre ++ row' :: post
              /\ (row' = ship row \/ row' = deliver row)
              /\ String.eqb (Text.strip (status row)) (Text.strip (status row'))
                 = false) as (row' & -> & Hrow' & Hdiff).
    { destruct (advanced_status_differs row) as [Hp Hs].
      destruct Hcase as [[H1 ->] | (_ & H2 & ->)]; eexists; eauto. }
    assert (order_id row' = order_id row /\ customer row' = customer row)
      as [Hid Hcust] by (destruct Hrow' as [-> | ->]; split; reflexivity).
    unfold check_order_updates.
    cbn [save_orders orders_csv last_order_status set_last_status fst snd].
    rewrite (sweep_one_change _ _ _ _ _ Hid Hcust Hpre Hpost Hsync Hdiff).
    cbn [fst snd]. split.
    + apply Forall_app in Hsync as [Hs1 Hs2].
      inversion Hs2 as [|? ? _ Hs3]; subst.
      apply Forall_app. split; [apply synced_insert_other; assumption|].
      constructor; [|apply synced_insert_other; assumption].
      rewrite Hid. apply lookup_insert_eq.
    + exists pre, row, row', post. auto.
  - unfold check_order_updates, sweep_rows.
    rewrite (observe_rows_synced _ (last_order_status st, [])) by exact Hsync.
    cbn [fst snd orders_csv last_order_status set_last_status].
    split; [exact Hsync | split; reflexivity].
Qed.

Lemma transition_notified_once_witness :
  let row1 := OrderRow "10001" "rice" "3" "Delivered" "Delivered Today"
                       "Cash/UPI on Delivery" "919900000001" "2024-01-01" in
  let row2 := OrderRow "10002" "oil" "1" "Processing" "2 days"
                       "Cash/UPI on Delivery" "919900000002" "2024-01-01" in
  let st := set_last_status (save_orders (initial_state "2024-01-01") [row1; row2])
                            {["10001" := "Delivered"; "10002" := "Processing"]} in
  let r := check_order_updates (simulate_order_flow st) in
  synced (last_order_status r.1) (orders_csv r.1)
  /\ r.2 = [("919900000002", MsgOrderUpdate (ship row2))].
Proof.
  intros row1 row2 st r.
  assert (NoDup (order_id <$> orders_csv st)) as Hnd.
  { cbn. apply NoDup_cons. split; [|apply NoDup_singleton].
    rewrite list_elem_of_singleton. discriminate. }
  assert (synced (last_order_status st) (orders_csv st)) as Hsync.
  { constructor; [reflexivity|]. constructor; [reflexivity | constructor]. }
  destruct (transition_notified_once st Hnd Hsync) as [H1 _].
  split; [exact H1 | reflexivity].
Defined.

(** * Further properties of the offers file *)

Section OffersFile.

Local Abbreviation LF := (String "010" EmptyString).

Implicit Types (s cur o content : string) (c : ascii) (l : list string).

Lemma app_cons c s t : String c s +:+ t = String c (s +:+ t).
Proof. reflexivity. Qed.

Lemma app_empty_r s : s +:+ EmptyString = s.
Proof. induction s as [|c s IH]; [reflexivity|]. rewrite app_cons, IH. reflexivity. Qed.

Lemma app_assoc_text s t u : (s +:+ t) +:+ u = s +:+ (t +:+ u).
Proof.
  induction s as [|c s IH]; [reflexivity|]. rewrite !app_cons, IH. reflexivity.
Qed.

Lemma rstrip_cons c s :
  Text.isspace c = false -> Text.rstrip (String c s) = String c (Text.rstrip s).
Proof.
  intros Hc. cbn [Text.rstrip]. rewrite Hc.
  destruct (Text.rstrip s); reflexivity.
Qed.

Lemma rstrip_rstrip s : Text.rstrip (Text.rstrip s) = Text.rstrip s.
Proof.
  induction s as [|c s IH]; [reflexivity|]. cbn [Text.rstrip].
  destruct (Text.rstrip s) as [|c' r] eqn:E.
  - destruct (Text.isspace c) eqn:Ec; [reflexivity|].
    cbn [Text.rstrip]. rewrite Ec. reflexivity.
  - change (Text.rstrip (String c (String c' r)))
      with (match Text.rstrip (String c' r) with
            | EmptyString =>
                if Text.isspace c then EmptyString else String c EmptyString
            | String c0 r0 => String c (String c0 r0)
            end).
    rewrite IH. reflexivity.
Qed.

Lemma rstrip_line s : Text.rstrip (s +:+ LF) = Text.rstrip s.
Proof.
  induction s as [|c s IH]; [reflexivity|].
  rewrite app_cons. cbn [Text.rstrip]. rewrite IH. reflexivity.
Qed.

Lemma lstrip_head s :
  Text.lstrip s = EmptyString
  \/ exists c t, Text.lstrip s = String c t /\ Text.isspace c = false.
Proof.
  induction s as [|c s IH]; [left; reflexivity|]. cbn [Text.lstrip].
  destruct (Text.isspace c) eqn:Ec; [exact IH | right; eauto].
Qed.

Lemma strip_strip s : Text.strip (Text.strip s) = Text.strip s.
Proof.
  unfold Text.strip at 2 3.
  destruct (lstrip_head s) as [-> | (c & t & -> & Hc)]; [reflexivity|].
  rewrite rstrip_cons by exact Hc. unfold Text.strip. cbn [Text.lstrip].
  rewrite Hc, <- rstrip_cons by exact Hc. apply rstrip_rstrip.
Qed.

Lemma strip_line s : Text.strip (s +:+ LF) = Text.strip s.
Proof.
  unfold Text.strip. induction s as [|c s IH]; [reflexivity|].
  rewrite app_cons. cbn [Text.lstrip].
  destruct (Text.isspace c); [exact IH|].
  rewrite <- app_cons. apply rstrip_line.
Qed.

Lemma no_breaks_lstrip s : no_breaks s = true -> no_breaks (Text.lstrip s) = true.
Proof.
  induction s as [|c s IH]; [auto|]. intros H. cbn [Text.lstrip].
  destruct (Text.isspace c); [|exact H].
  cbn [no_breaks] in H. apply andb_true_iff in H as [_ H]. exact (IH H).
Qed.

Lemma no_breaks_rstrip s : no_breaks s = true -> no_breaks (Text.rstrip s) = true.
Proof.
  induction s as [|c s IH]; [auto|]. intros H. cbn [no_breaks] in H.
  apply andb_true_iff in H as [Hc H]. specialize (IH H). cbn [Text.rstrip].
  destruct (Text.rstrip s) as [|c' r].
  - destruct (Text.isspace c); [reflexivity|]. cbn [no_breaks].
    rewrite Hc. reflexivity.
  - cbn [no_breaks] in *. rewrite Hc, IH. reflexivity.
Qed.

Lemma no_breaks_strip s : no_breaks s = true -> no_breaks (Text.strip s) = true.
Proof. intros H. apply no_breaks_rstrip, no_breaks_lstrip, H. Qed.

Lemma no_breaks_snoc cur c :
  no_breaks cur = true -> is_lf c = false -> is_cr c = false ->
  no_breaks (cur +:+ String c EmptyString) = true.
Proof.
  intros H Hlf Hcr. induction cur as [|x cur IH].
  - change (no_breaks (String c EmptyString) = true). cbn [no_breaks].
    rewrite Hlf, Hcr. reflexivity.
  - rewrite app_cons. cbn [no_breaks] in *.
    apply andb_true_iff in H as [Hx H]. rewrite Hx, (IH H). reflexivity.
Qed.

(** Every line read from a file, stripped, is free of line breaks. *)
Lemma readlines_from_lines n : forall s cur,
  (String.length s <= n)%nat -> no_breaks cur = true ->
  Forall (fun line => no_breaks (Text.strip line) = true) (readlines_from cur s).
Proof.
  induction n as [|n IH]; intros s cur Hlen Hcur.
  - destruct s; [|cbn in Hlen; lia]. cbn.
    destruct cur; constructor; [apply no_breaks_strip, Hcur | constructor].
  - destruct s as [|c s]; cbn [readlines_from].
    { destruct cur; constructor; [apply no_breaks_strip, Hcur | constructor]. }
    cbn [String.length] in Hlen.
    assert (no_breaks (Text.strip (cur +:+ LF)) = true) as Hline
        by (rewrite strip_line; apply no_breaks_strip, Hcur).
    destruct (is_lf c) eqn:Elf.
    + apply Ascii.eqb_eq in Elf. subst c.
      constructor; [exact Hline | apply IH; [lia | reflexivity]].
    + destruct (is_cr c) eqn:Ecr.
      * destruct s as [|c2 s]; [constructor; [exact Hline | constructor]|].
        cbn [String.length] in Hlen. destruct (is_lf c2) eqn:Elf2.
        -- apply Ascii.eqb_eq in Elf2. subst c2.
           constructor; [exact Hline | apply IH; [lia | reflexivity]].
        -- constructor; [exact Hline | apply IH; [cbn; lia | reflexivity]].
      * apply IH; [lia | apply no_breaks_snoc; assumption].
Qed.

(** What is read from the offers file are offer lines. *)
Lemma read_offers_lines content : Forall offer_line (read_offers content).
Proof.
  unfold read_offers. apply Forall_forall. intros o Ho.
  apply list_elem_of_filter in Ho as [Hne Ho].
  apply list_elem_of_fmap in Ho as (line & -> & Hline).
  pose proof (readlines_from_lines (String.length content) content EmptyString
                (le_n _) eq_refl) as H.
  rewrite Forall_forall in H. unfold offer_line.
  split; [apply H, Hline|]. split; [apply strip_strip | exact Hne].
Qed.

(** A line of the file is read back as one line. *)
Lemma readlines_from_line o : forall cur rest,
  no_breaks o = true ->
  readlines_from cur (o +:+ LF +:+ rest)
  = (cur +:+ o +:+ LF) :: readlines_from EmptyString rest.
Proof.
  induction o as [|c o IH]; intros cur rest H.
  - reflexivity.
  - cbn [no_breaks] in H. apply andb_true_iff in H as [Hc H].
    apply andb_true_iff in Hc as [Hlf Hcr].
    apply negb_true_iff in Hlf, Hcr.
    rewrite app_cons. cbn [readlines_from]. rewrite Hlf, Hcr.
    rewrite IH by exact H. rewrite app_assoc_text. reflexivity.
Qed.

(** Offer lines written to the file are read back as they were. *)
Lemma read_offers_text l :
  Forall offer_line l -> read_offers (offers_text l) = l.
Proof.
  unfold read_offers, readlines.
  induction 1 as [|o l (Hnb & Hstrip & Hne) Hl IH]; [reflexivity|].
  cbn [offers_text]. rewrite readlines_from_line by exact Hnb.
  rewrite fmap_cons. change (EmptyString +:+ o +:+ LF) with (o +:+ LF).
  rewrite strip_line, Hstrip, filter_cons_True by exact Hne.
  rewrite IH. reflexivity.
Qed.

(** A remove-offer text reaches the search of the offers. *)
Lemma remove_offer_text st from_number rest :
  nonempty (Text.strip rest) = true ->
  handle_admin_command_text st from_number ("remove offer" +:+ rest)
  = match offers_file st with
    | None => (true, st, [(from_number, MsgNoOffersFile)])
    | Some content =>
        if offer_in (Text.strip rest) (read_offers content) then
          (true,
           write_offers st
             (offers_text (list_remove (Text.strip rest) (read_offers content))),
           [(from_number, MsgOfferRemoved (Text.strip rest))])
        else (true, st, [(from_number, MsgOfferNotFound (Text.strip rest))])
    end.
Proof.
  intros Hne. unfold handle_admin_command_text.
  change (Text.startswith ("remove offer" +:+ rest) "restock ") with false.
  change (Text.startswith ("remove offer" +:+ rest) "add offer") with false.
  unfold Text.startswith at 1.
  rewrite TextFacts.remove_first_prefix, TextFacts.prefix_app
    by apply TextFacts.prefix_app.
  change (Text.drop _ ("remove offer" +:+ rest)) with rest.
  cbv iota. rewrite Hne. reflexivity.
Qed.

Lemma offer_in_elem o l : offer_in o l = true <-> o ∈ l.
Proof.
  induction l as [|x l IH]; cbn.
  - split; [discriminate | intros H; apply elem_of_nil in H; destruct H].
  - rewrite elem_of_cons, <- IH. destruct (String.eqb x o) eqn:E.
    + apply String.eqb_eq in E. subst. tauto.
    + apply String.eqb_neq in E. split; [auto | intros [->|]; congruence].
Qed.

Lemma list_remove_lines o l :
  Forall offer_line l -> Forall offer_line (list_remove o l).
Proof.
  induction 1 as [|x l Hx Hl IH]; cbn; [constructor|].
  destruct (String.eqb x o); [exact Hl | constructor; assumption].
Qed.

End OffersFile.

Section OffersAppend.

Local Abbreviation LF := (String "010" EmptyString).

Implicit Types (a b cur content : string).

(** Text that follows a complete line is read on its own. *)
Lemma readlines_from_app n : forall a cur b,
  (String.length a <= n)%nat ->
  readlines_from cur (a +:+ LF +:+ b)
  = readlines_from cur (a +:+ LF) ++ readlines_from EmptyString b.
Proof.
  induction n as [|n IH]; intros a cur b Hlen.
  - destruct a; [reflexivity | cbn in Hlen; lia].
  - destruct a as [|c a]; [reflexivity|]. cbn [String.length] in Hlen.
    rewrite (app_cons c a (LF +:+ b)), (app_cons c a LF).
    cbn [readlines_from].
    destruct (is_lf c).
    { rewrite IH by lia. reflexivity. }
    destruct (is_cr c); [|apply IH; lia].
    destruct a as [|c2 a]; [reflexivity|]. cbn [String.length] in Hlen.
    rewrite (app_cons c2 a (LF +:+ b)), (app_cons c2 a LF).
    destruct (is_lf c2).
    + rewrite IH by lia. reflexivity.
    + rewrite <- (app_cons c2 a (LF +:+ b)), <- (app_cons c2 a LF).
      rewrite IH by (cbn; lia). reflexivity.
Qed.

Lemma read_offers_app content b :
  content = EmptyString \/ (exists a, content = a +:+ LF) ->
  read_offers (content +:+ b) = read_offers content ++ read_offers b.
Proof.
  intros [-> | (a & ->)]; [reflexivity|].
  unfold read_offers, readlines.
  rewrite app_assoc_text, (readlines_from_app (String.length a)) by lia.
  rewrite fmap_app, filter_app. reflexivity.
Qed.

(** An add-offer text with something to add appends one line. *)
Lemma add_offer_text st from_number rest :
  nonempty (Text.strip rest) = true ->
  handle_admin_command_text st from_number ("add offer" +:+ rest)
  = (true,
     write_offers st
       (match offers_file st with Some c => c | None => EmptyString end
        +:+ Text.strip rest +:+ LF),
     [(from_number, MsgOfferAdded (Text.strip rest))]).
Proof.
  intros Hne. unfold handle_admin_command_text.
  change (Text.startswith ("add offer" +:+ rest) "restock ") with false.
  unfold Text.startswith at 1.
  rewrite TextFacts.remove_first_prefix, TextFacts.prefix_app
    by apply TextFacts.prefix_app.
  change (Text.drop _ ("add offer" +:+ rest)) with rest.
  cbv iota. rewrite Hne. reflexivity.
Qed.

(** One offer line, written, reads back as that line. *)
Lemma read_offers_one o :
  offer_line o -> read_offers (o +:+ LF) = [o].
Proof.
  intros H. pose proof (read_offers_text [o]) as E.
  cbn [offers_text] in E. rewrite app_empty_r in E.
  apply E. constructor; [exact H | constructor].
Qed.

End OffersAppend.

(** X18: the offers file after a removal reads back as the offers that
    remain, in their order; when the only offer was removed the offers shown
    to customers are the three default ones again. *)
Theorem remove_offer_reads_back st from_number rest content pre post :
  offers_file st = Some content ->
  read_offers content = pre ++ Text.strip rest :: post ->
  Text.strip rest ∉ pre ->
  let st' := ((handle_admin_command_text st from_number
                 ("remove offer" +:+ rest)).1).2 in
  (exists new, offers_file st' = Some new /\ read_offers new = pre ++ post)
  /\ get_offers_text st'
     = match pre ++ post with [] => default_offers | l => l end.
Proof.
  intros Hfile Hread Hnot st'. subst st'.
  pose proof (read_offers_lines content) as Hlines. rewrite Hread in Hlines.
  assert (nonempty (Text.strip rest) = true) as Hne.
  { apply Forall_app in Hlines as [_ Hl]. inversion Hl as [|? ? Ho _]; subst.
    apply Ho. }
  assert (Forall offer_line (pre ++ post)) as Hrest.
  { apply Forall_app in Hlines as [H1 H2]. inversion H2; subst.
    apply Forall_app. split; assumption. }
  rewrite remove_offer_text, Hfile, Hread by exact Hne.
  rewrite offer_in_middle, list_remove_middle by exact Hnot.
  cbn [fst snd]. unfold get_offers_text. cbn [offers_file write_offers].
  rewrite (read_offers_text _ Hrest). split; [|reflexivity].
  eexists. split; [reflexivity | apply read_offers_text, Hrest].
Qed.

Lemma remove_offer_reads_back_witness :
  let st := write_offers (initial_state "2024-01-01")
                         (offers_text ["5% off on oil"]) in
  let st' := ((handle_admin_command_text st "919900000002"
                 "remove offer 5% off on oil").1).2 in
  (exists new, offers_file st' = Some new /\ read_offers new = [])
  /\ get_offers_text st' = default_offers.
Proof.
  intros st.
  apply (remove_offer_reads_back st "919900000002" " 5% off on oil"
           (offers_text ["5% off on oil"]) [] []).
  - reflexivity.
  - vm_compute. reflexivity.
  - apply not_elem_of_nil.
Defined.

(** X19: a remove-offer command that finds nothing to remove leaves the
    file as it is: with no text after the command the reply is the usage
    line, with no offers file the reply says so, and for a text that is not
    among the offers of the file the reply is that the offer was not
    found. *)
Theorem remove_offer_rejected st from_number rest :
  let r := handle_admin_command_text st from_number ("remove offer" +:+ rest) in
  (Text.strip rest = EmptyString ->
   r = (true, st, [(from_number, MsgRemoveOfferUsage)]))
  /\ (nonempty (Text.strip rest) = true -> offers_file st = None ->
      r = (true, st, [(from_number, MsgNoOffersFile)]))
  /\ (forall content,
         nonempty (Text.strip rest) = true -> offers_file st = Some content ->
         Text.strip rest ∉ read_offers content ->
         r = (true, st, [(from_number, MsgOfferNotFound (Text.strip rest))])).
Proof.
  intros r. subst r. split; [|split].
  - intros Hempty. unfold handle_admin_command_text.
    change (Text.startswith ("remove offer" +:+ rest) "restock ") with false.
    change (Text.startswith ("remove offer" +:+ rest) "add offer") with false.
    unfold Text.startswith at 1.
    rewrite TextFacts.remove_first_prefix, TextFacts.prefix_app
      by apply TextFacts.prefix_app.
    change (Text.drop _ ("remove offer" +:+ rest)) with rest.
    rewrite Hempty. reflexivity.
  - intros Hne Hfile. rewrite remove_offer_text, Hfile by exact Hne. reflexivity.
  - intros content Hne Hfile Hnot.
    rewrite remove_offer_text, Hfile by exact Hne.
    destruct (offer_in (Text.strip rest) (read_offers content)) eqn:E;
      [|reflexivity].
    apply offer_in_elem in E. contradiction.
Qed.

Lemma remove_offer_rejected_witness :
  let owner := "919900000002" in
  let st := initial_state "2024-01-01" in
  let st2 := write_offers st (offers_text ["free tea"]) in
  handle_admin_command_text st owner "remove offer"
  = (true, st, [(owner, MsgRemoveOfferUsage)])
  /\ handle_admin_command_text st owner "remove offer free tea"
     = (true, st, [(owner, MsgNoOffersFile)])
  /\ handle_admin_command_text st2 owner "remove offer free milk"
     = (true, st2, [(owner, MsgOfferNotFound "free milk")]).
Proof.
  intros owner st st2.
  destruct (remove_offer_rejected st owner EmptyString) as (H1 & _ & _).
  destruct (remove_offer_rejected st owner " free tea") as (_ & H2 & _).
  destruct (remove_offer_rejected st2 owner " free milk") as (_ & _ & H3).
  split; [apply H1; reflexivity|].
  split; [apply H2; reflexivity|].
  apply (H3 (offers_text ["free tea"])); try reflexivity.
  replace (read_offers (offers_text ["free tea"])) with ["free tea"]
    by (vm_compute; reflexivity).
  rewrite list_elem_of_singleton. discriminate.
Defined.

(** X20: [add offer <text>] with a one-line text appends the stripped text
    as the last offer: when there is no offers file yet, or the file is
    empty or ends with a line feed, the offers read from the file afterwards
    are the ones before followed by the new one, and they are what
    customers are shown. *)
Theorem add_offer_appends st from_number rest :
  let offer := Text.strip rest in
  let before :=
    match offers_file st with Some c => read_offers c | None => [] end in
  nonempty offer = true ->
  no_breaks offer = true ->
  match offers_file st with
  | Some c => c = EmptyString \/ exists a, c = a +:+ String "010" EmptyString
  | None => True
  end ->
  let r := handle_admin_command_text st from_number ("add offer" +:+ rest) in
  r.2 = [(from_number, MsgOfferAdded offer)]
  /\ (exists new, offers_file (r.1).2 = Some new
                  /\ read_offers new = before ++ [offer])
  /\ get_offers_text (r.1).2 = before ++ [offer].
Proof.
  intros offer before Hne Hnb Hfile r. subst r.
  rewrite add_offer_text by exact Hne. fold offer. cbn [fst snd].
  assert (offer_line offer) as Hline
      by (split; [exact Hnb | split; [apply strip_strip | exact Hne]]).
  assert (read_offers
            (match offers_file st with Some c => c | None => EmptyString end
             +:+ offer +:+ String "010" EmptyString)
          = before ++ [offer]) as Hread.
  { subst before. destruct (offers_file st) as [c|].
    - rewrite read_offers_app by exact Hfile.
      rewrite read_offers_one by exact Hline. reflexivity.
    - change (EmptyString +:+ ?x) with x.
      rewrite read_offers_one by exact Hline. reflexivity. }
  split; [reflexivity|]. split; [eexists; split; [reflexivity | exact Hread]|].
  unfold get_offers_text. cbn [offers_file write_offers]. rewrite Hread.
  destruct before; reflexivity.
Qed.

Lemma add_offer_appends_witness :
  let st := write_offers (initial_state "2024-01-01")
                         (offers_text ["free tea"]) in
  let r := handle_admin_command_text st "919900000002"
                                     "add offer  5% off on oil" in
  r.2 = [("919900000002", MsgOfferAdded "5% off on oil")]
  /\ (exists new, offers_file (r.1).2 = Some new
                  /\ read_offers new = ["free tea"] ++ ["5% off on oil"])
  /\ get_offers_text (r.1).2 = ["free tea"] ++ ["5% off on oil"].
Proof.
  intros st.
  apply (add_offer_appends st "919900000002" "  5% off on oil");
    [reflexivity | reflexivity |].
  right. exists "free tea". reflexivity.
Defined.

(** * Order ids of a ledger built by placements *)

Section Numbering.

Implicit Types (df : list order_row) (ids : list Z).

Lemma all_digits_uint d : Text.all_digits (NilEmpty.string_of_uint d) = true.
Proof. induction d; cbn [NilEmpty.string_of_uint Text.all_digits]; auto. Qed.

(** The text of a non-negative integer is all digits. *)
Lemma isdigit_str_of_int z : 0 <= z -> Text.isdigit (Text.str_of_int z) = true.
Proof.
  intros Hz. unfold Text.str_of_int.
  destruct z as [|p|p]; [reflexivity | | lia].
  cbn [Z.to_int NilZero.string_of_int]. unfold NilZero.string_of_uint.
  pose proof (all_digits_uint (Pos.to_uint p)) as H.
  destruct (Pos.to_uint p); try exact H; reflexivity.
Qed.

Lemma str_of_int_inj a b : Text.str_of_int a = Text.str_of_int b -> a = b.
Proof.
  intros H. pose proof (TextFacts.int_of_str_of_int a) as Ha.
  rewrite H, TextFacts.int_of_str_of_int in Ha. congruence.
Qed.

Lemma astype_int_str ids :
  Forall (fun z => - 2 ^ 63 <= z < 2 ^ 63) ids ->
  astype_int (Text.str_of_int <$> ids) = Some ids.
Proof.
  induction 1 as [|z ids Hz H IH]; [reflexivity|].
  rewrite fmap_cons. cbn [astype_int]. rewrite cell_to_int_str, IH by exact Hz.
  reflexivity.
Qed.

Lemma fold_max_in ids a : fold_left Z.max ids a ∈ a :: ids.
Proof.
  revert a. induction ids as [|z ids IH]; intros a; cbn; [left|].
  specialize (IH (Z.max a z)). apply elem_of_cons in IH as [-> | IH].
  - destruct (Z.max_spec a z) as [[_ ->] | [_ ->]]; [right; left | left].
  - right. right. exact IH.
Qed.

(** The next id on a numbered ledger is 10001 plus the number of rows. *)
Lemma next_order_id_numbered df :
  numbered df -> 10001 + Z.of_nat (length df) < 2 ^ 63 ->
  next_order_id df = 10001 + Z.of_nat (length df).
Proof.
  unfold numbered. intros Hn Hlen. unfold next_order_id.
  destruct df as [|row df]; [reflexivity|].
  rewrite Hn. set (n := length (row :: df)) in *.
  rewrite (list_fmap_compose (fun i => 10001 + Z.of_nat i) Text.str_of_int).
  rewrite astype_int_str.
  2:{ apply Forall_fmap, Forall_forall. intros i Hi.
      apply elem_of_seq in Hi. cbn. lia. }
  set (ids := (fun i => 10001 + Z.of_nat i) <$> seq 0 n).
  assert (column_max ids ∈ ids) as Hin.
  { subst ids n. cbn [length seq fmap list_fmap]. apply fold_max_in. }
  assert (10001 + Z.of_nat (n - 1) ∈ ids) as Hlast.
  { subst ids. apply list_elem_of_fmap. exists (n - 1)%nat. split; [reflexivity|].
    apply elem_of_seq. subst n. cbn [length]. lia. }
  pose proof (column_max_ge ids) as Hge. rewrite Forall_forall in Hge.
  apply Hge in Hlast.
  subst ids. apply list_elem_of_fmap in Hin as (i & Hi & Hseq).
  apply elem_of_seq in Hseq. subst n. cbn [length] in *. lia.
Qed.

End Numbering.

(** X21: orders are numbered in the order they are placed.  The empty
    ledger is numbered, and on a numbered ledger a successful [add_order]
    returns the id 10001 plus the number of orders already there and leaves
    a numbered ledger, as long as that id fits the 64-bit id column. *)
Theorem add_order_numbers_orders :
  numbered []
  /\ forall st item qty cust new_id st' out,
       numbered (orders_csv st) ->
       10001 + Z.of_nat (length (orders_csv st)) < 2 ^ 63 ->
       add_order st item qty cust = (Some new_id, st', out) ->
       new_id = Text.str_of_int (10001 + Z.of_nat (length (orders_csv st)))
       /\ length (orders_csv st') = S (length (orders_csv st))
       /\ numbered (orders_csv st').
Proof.
  split; [reflexivity|].
  intros st item qty cust new_id st' out Hn Hlen H.
  apply add_order_success in H as (s & q & _ & _ & _ & Hid & _ & Hdf).
  rewrite next_order_id_numbered in Hid by assumption.
  split; [exact Hid|]. rewrite Hdf, length_app. cbn [length].
  split; [lia|]. unfold numbered in *.
  rewrite fmap_app, length_app, Hn. cbn [length fmap list_fmap order_id].
  replace (length (orders_csv st) + 1)%nat with (S (length (orders_csv st)))
    by lia.
  rewrite seq_S, fmap_app. cbn. rewrite Hid. reflexivity.
Qed.

Lemma add_order_numbers_orders_witness :
  let row := OrderRow "10001" "rice" "3" "Processing" "2 days"
                      "Cash/UPI on Delivery" "919900000001" "2024-01-01" in
  let st := save_orders (initial_state "2024-01-01") [row] in
  let r := add_order st "oil" (PyInt 1) "919900000002" in
  (r.1).1 = Some (Text.str_of_int (10001 + Z.of_nat (length (orders_csv st))))
  /\ numbered (orders_csv (r.1).2).
Proof.
  intros row st r.
  destruct add_order_numbers_orders as [_ H].
  destruct (H st "oil" (PyInt 1) "919900000002" "10002" (r.1).2 r.2)
    as (H1 & _ & H3); [reflexivity | cbn; lia | reflexivity |].
  split; [reflexivity | exact H3].
Defined.

(** X22: the id [add_order] returns on a numbered ledger is one the status
    lookup accepts and finds: typed at the order-id prompt it is answered
    with the order just placed, still Processing. *)
Theorem placed_order_is_found st item qty cust new_id st' out from_number :
  numbered (orders_csv st) ->
  10001 + Z.of_nat (length (orders_csv st)) < 2 ^ 63 ->
  add_order st item qty cust = (Some new_id, st', out) ->
  exists row,
    order_status_reply st' from_number new_id
    = (pop_session st' from_number, [(from_number, MsgOrderStatus row)])
    /\ order_id row = new_id /\ product row = item
    /\ customer row = cust /\ status row = "Processing".
Proof.
  intros Hn Hlen H.
  apply add_order_success in H as (s & q & _ & _ & _ & Hid & _ & Hdf).
  rewrite next_order_id_numbered in Hid by assumption. subst new_id.
  match type of Hdf with _ = _ ++ [?row] => exists row end.
  split; [|repeat split; reflexivity].
  unfold order_status_reply. cbn [pop_session set_sessions orders_csv].
  rewrite isdigit_str_of_int by lia. cbn [negb].
  rewrite Hdf, find_order_first; [reflexivity | reflexivity |].
  rewrite Hn. intros Hin. apply list_elem_of_fmap in Hin as (i & Hi & Hseq).
  apply elem_of_seq in Hseq. apply str_of_int_inj in Hi. lia.
Qed.

Lemma placed_order_is_found_witness :
  let st := initial_state "2024-01-01" in
  let r := add_order st "rice" (PyInt 3) "919900000001" in
  exists row,
    order_status_reply (r.1).2 "919900000001" "10001"
    = (pop_session (r.1).2 "919900000001", [("919900000001", MsgOrderStatus row)])
    /\ order_id row = "10001" /\ product row = "rice"
    /\ customer row = "919900000001" /\ status row = "Processing".
Proof.
  intros st r.
  apply (placed_order_is_found st "rice" (PyInt 3) "919900000001" "10001"
           (r.1).2 r.2 "919900000001"); [reflexivity | cbn; lia | reflexivity].
Defined.

(** * Every message is answered *)

Section Replies.

Implicit Types (st : state) (from_number text body : string).



End Replies.


(** * Normalisation of the inbound text *)

Section Normalisation.

Implicit Types (s : string) (c : ascii).

Lemma lower_char_facts c :
  Text.isspace (Text.lower_char c) = Text.isspace c
  /\ Text.lower_char (Text.lower_char c) = Text.lower_char c.
Proof. destruct c as [[] [] [] [] [] [] [] []]; split; reflexivity. Qed.

Lemma lstrip_lower s : Text.lstrip (Text.lower s) = Text.lower (Text.lstrip s).
Proof.
  induction s as [|c s IH]; [reflexivity|]. cbn [Text.lower Text.lstrip].
  destruct (lower_char_facts c) as [-> _].
  destruct (Text.isspace c); [exact IH | reflexivity].
Qed.

Lemma rstrip_lower s : Text.rstrip (Text.lower s) = Text.lower (Text.rstrip s).
Proof.
  induction s as [|c s IH]; [reflexivity|]. cbn [Text.lower Text.rstrip].
  rewrite IH. destruct (lower_char_facts c) as [-> _].
  destruct (Text.rstrip s); cbn [Text.lower]; [|reflexivity].
  destruct (Text.isspace c); reflexivity.
Qed.

Lemma lower_lower s : Text.lower (Text.lower s) = Text.lower s.
Proof.
  induction s as [|c s IH]; [reflexivity|]. cbn [Text.lower].
  destruct (lower_char_facts c) as [_ ->]. rewrite IH. reflexivity.
Qed.

(** Normalising a normalised text gives it back. *)
Lemma normalise_twice s :
  Text.lower (Text.strip (Text.lower (Text.strip s))) = Text.lower (Text.strip s).
Proof.
  unfold Text.strip at 1. rewrite lstrip_lower, rstrip_lower, lower_lower.
  fold (Text.strip (Text.strip s)). rewrite strip_strip. reflexivity.
Qed.

End Normalisation.

(** X24: the router reads a message up to letter case and surrounding
    white space: a body and its stripped, lower-cased form are handled in
    the same way, with the same state afterwards and the same replies. *)
Theorem incoming_normalises st from_number body :
  incoming st from_number body
  = incoming st from_number (Text.lower (Text.strip body)).
Proof. unfold incoming. rewrite normalise_twice. reflexivity. Qed.
